(** * Tavern pytest hook utilities: option registration, option precedence
      and the cached global-configuration loader.

    A shallow embedding of [tavern/testutils/pytesthook/util.py]:
    [add_parser_options], [load_global_cfg] (with its [lru_cache]
    decorator) and [get_option_generic], together with the properties of
    the natural-language specification that concern them. *)

From stdpp Require Import gmap strings list fin_maps.
From Stdlib Require Import ZArith Ascii.

Local Set Warnings "-register-all".
Local Open Scope string_scope.

(** ** Python values *)

(** The values that travel through this module: what the option stores
    hand out, what the YAML loader produces and what ends up in the
    settings dictionary.  Dictionaries are keyed by strings. *)
Inductive PyVal : Type :=
| VNone
| VBool (b : bool)
| VInt (n : Z)
| VStr (s : string)
| VList (l : list PyVal)
| VDict (d : gmap string PyVal).

(** [bool(v)]: the truth value Python gives to [v] in [if v] and [v or w]. *)
Definition truthy (v : PyVal) : bool :=
  match v with
  | VNone => false
  | VBool b => b
  | VInt n => negb (n =? 0)%Z
  | VStr s => negb (String.eqb s "")
  | VList l => match l with [] => false | _ :: _ => true end
  | VDict d => negb (Nat.eqb (size d) 0)
  end.

(** [a or b]. *)
Definition py_or (a b : PyVal) : PyVal := if truthy a then a else b.

(** [a is not None]. *)
Definition is_not_None (v : PyVal) : bool :=
  match v with VNone => false | _ => true end.

(** [a == b].  Booleans compare equal to the integers 0 and 1, lists
    compare element-wise, dictionaries compare key by key. *)
Fixpoint py_eq (a b : PyVal) : bool :=
  match a, b with
  | VNone, VNone => true
  | VBool x, VBool y => Bool.eqb x y
  | VBool x, VInt n | VInt n, VBool x => (n =? (if x then 1 else 0))%Z
  | VInt x, VInt y => (x =? y)%Z
  | VStr x, VStr y => String.eqb x y
  | VList xs, VList ys =>
      (fix go (xs ys : list PyVal) : bool :=
         match xs, ys with
         | [], [] => true
         | x :: xs', y :: ys' => py_eq x y && go xs' ys'
         | _, _ => false
         end) xs ys
  | VDict d1, VDict d2 =>
      Nat.eqb (size d1) (size d2) &&
      map_fold (fun k v acc =>
                  acc && match d2 !! k with
                         | Some v' => py_eq v v'
                         | None => false
                         end) true d1
  | _, _ => false
  end.

(** [a != b]. *)
Definition py_ne (a b : PyVal) : bool := negb (py_eq a b).

(** [x in xs] for a list [xs]. *)
Definition py_in (x : PyVal) (xs : list PyVal) : bool :=
  existsb (fun y => py_eq y x) xs.

(** [s.replace(old, new)] for one-character [old] and [new]. *)
Fixpoint str_replace (old new : ascii) (s : string) : string :=
  match s with
  | EmptyString => EmptyString
  | String c rest =>
      String (if Ascii.eqb c old then new else c) (str_replace old new rest)
  end.

(** ** Exceptions, log records and the observable world *)

Inductive PyExc : Type :=
| InvalidConfigurationException (template : string) (args : list PyVal)
    (** [template.format( *args )] is the message *)
| TypeError
| KeyError (key : string)
| CollaboratorError (what : PyVal).
    (** whatever the file loader or the formatter raised *)

Inductive Result (A : Type) : Type :=
| Ok (a : A)
| Raise (e : PyExc).
Arguments Ok {A} a.
Arguments Raise {A} e.

Inductive LogLevel : Type := DEBUG | INFO | WARNING | ERROR.

Record LogRecord : Type := mkLog {
  log_level : LogLevel;
  log_msg : string;
  log_args : list PyVal
}.

(** A lookup made on the pytest configuration object. *)
Inductive Query : Type :=
| QIni (name : string)      (** [pytest_config.getini(name)] *)
| QOption (name : string).  (** [pytest_config.getoption(name)] *)

(** The pytest configuration object.  Both stores answer [VNone] for a
    name that has no value.  [config_id] is the object's identity, which
    is what the cache hashes and compares. *)
Record PytestConfig : Type := mkConfig {
  config_id : nat;
  ini_values : string -> PyVal;
  option_values : string -> PyVal
}.

(** Everything a call can change or leave a trace in.  All traces are in
    chronological order. *)
Record World : Type := mkWorld {
  queries : list Query;                   (** lookups on the config object *)
  loader_calls : list PyVal;              (** arguments of [load_global_config] *)
  formatter_calls : list (PyVal * PyVal); (** arguments of [format_keys] *)
  log : list LogRecord;                   (** records sent to the logger *)
  lru : list (nat * gmap string PyVal)    (** cache, most recently used first *)
}.

Definition with_queries (w : World) (q : list Query) : World :=
  mkWorld q (loader_calls w) (formatter_calls w) (log w) (lru w).
Definition with_loader_calls (w : World) (c : list PyVal) : World :=
  mkWorld (queries w) c (formatter_calls w) (log w) (lru w).
Definition with_formatter_calls (w : World) (c : list (PyVal * PyVal)) : World :=
  mkWorld (queries w) (loader_calls w) c (log w) (lru w).
Definition with_log (w : World) (l : list LogRecord) : World :=
  mkWorld (queries w) (loader_calls w) (formatter_calls w) l (lru w).
Definition with_lru (w : World) (c : list (nat * gmap string PyVal)) : World :=
  mkWorld (queries w) (loader_calls w) (formatter_calls w) (log w) c.

Definition initial_world : World := mkWorld [] [] [] [] [].

(** ** A state-and-exception monad for Python statements *)

Definition Py (A : Type) : Type := World -> Result A * World.

Definition ret {A} (a : A) : Py A := fun w => (Ok a, w).

Definition raise {A} (e : PyExc) : Py A := fun w => (Raise e, w).

Definition bind {A B} (m : Py A) (k : A -> Py B) : Py B :=
  fun w =>
    match m w with
    | (Ok a, w') => k a w'
    | (Raise e, w') => (Raise e, w')
    end.

Definition lift {A} (r : Result A) : Py A := fun w => (r, w).

Notation "'let*' x ':=' m 'in' k" := (bind m (fun x => k))
  (at level 10, x name, m at level 100, k at level 200).
Notation "'do' m 'then' k" := (bind m (fun _ => k))
  (at level 10, m at level 100, k at level 200).

(** [for x in xs: acc = body(x, acc)] *)
Fixpoint for_each {A B} (xs : list A) (body : A -> B -> Py B) (acc : B) : Py B :=
  match xs with
  | [] => ret acc
  | x :: rest => let* acc' := body x acc in for_each rest body acc'
  end.

(** [pytest_config.getini(name)] *)
Definition getini (pytest_config : PytestConfig) (name : string) : Py PyVal :=
  fun w => (Ok (ini_values pytest_config name),
            with_queries w (queries w ++ [QIni name])).

(** [pytest_config.getoption(name)] *)
Definition getoption (pytest_config : PytestConfig) (name : string) : Py PyVal :=
  fun w => (Ok (option_values pytest_config name),
            with_queries w (queries w ++ [QOption name])).

(** [logger.debug(msg, *args)] *)
Definition logger_debug (msg : string) (args : list PyVal) : Py unit :=
  fun w => (Ok tt, with_log w (log w ++ [mkLog DEBUG msg args])).

(** [a + b] *)
Definition py_add (a b : PyVal) : Result PyVal :=
  match a, b with
  | VList x, VList y => Ok (VList (x ++ y))
  | VStr x, VStr y => Ok (VStr (String.append x y))
  | VInt x, VInt y => Ok (VInt (x + y)%Z)
  | VInt x, VBool y => Ok (VInt (x + (if y then 1 else 0))%Z)
  | VBool x, VInt y => Ok (VInt ((if x then 1 else 0) + y)%Z)
  | VBool x, VBool y => Ok (VInt ((if x then 1 else 0) + (if y then 1 else 0))%Z)
  | _, _ => Raise TypeError
  end.

(** ** [get_option_generic] *)

Definition get_option_generic (pytest_config : PytestConfig)
    (flag : string) (default : PyVal) : Py PyVal :=
  let ini_flag := str_replace "-"%char "_"%char flag in
  let cli_flag := flag in
  let* ini_test := getini pytest_config ini_flag in
  if is_not_None ini_test then
    getini pytest_config ini_flag
  else
    let* cli_test := getoption pytest_config cli_flag in
    if is_not_None cli_test then
      getoption pytest_config cli_flag
    else
      ret default.

(** ** [add_parser_options] *)

(** One call [parser_addoption(flag, **kwargs)], keyword arguments in the
    order they are written. *)
Record AddOption : Type := mkAddOption {
  opt_flag : string;
  opt_kwargs : list (string * PyVal)
}.

(** Value of a keyword argument of a call, if it was passed. *)
Fixpoint kwarg (name : string) (kw : list (string * PyVal)) : option PyVal :=
  match kw with
  | [] => None
  | (k, v) :: rest => if String.eqb k name then Some v else kwarg name rest
  end.

(** The calls made on [parser_addoption], in order. *)
Definition add_parser_options (with_defaults : bool) : list AddOption :=
  [ mkAddOption "--tavern-global-cfg"
      [("help", VStr "One or more global configuration files to include in every test");
       ("required", VBool false);
       ("nargs", VStr "+")];
    mkAddOption "--tavern-http-backend"
      [("help", VStr "Which http backend to use");
       ("default", if with_defaults then VStr "requests" else VNone)];
    mkAddOption "--tavern-mqtt-backend"
      [("help", VStr "Which mqtt backend to use");
       ("default", if with_defaults then VStr "paho-mqtt" else VNone)];
    mkAddOption "--tavern-strict"
      [("help", VStr "Default response matching strictness");
       ("default", VNone);
       ("nargs", VStr "+");
       ("choices", VList [VStr "body"; VStr "headers"; VStr "redirect_query_params"])];
    mkAddOption "--tavern-beta-new-traceback"
      [("help", VStr "Use new traceback style (beta)");
       ("default", VBool false);
       ("action", VStr "store_true")];
    mkAddOption "--tavern-file-path-regex"
      [("help", VStr "Regex to search for Tavern YAML test files");
       ("default", VStr ".+\.tavern\.ya?ml$");
       ("action", VStr "store");
       ("nargs", VInt 1)] ].

(** The call that registers [flag], if there is one. *)
Definition registered (flag : string) (calls : list AddOption) : option AddOption :=
  List.find (fun c => String.eqb (opt_flag c) flag) calls.

(** ** [load_global_cfg] *)

Section Loader.

(** [tavern.util.general.load_global_config]: reads and merges the
    listed files. *)
Variable load_global_config : PyVal -> Result (gmap string PyVal).

(** [tavern.util.dict_util.format_keys]: substitutes placeholders. *)
Variable format_keys : PyVal -> PyVal -> Result PyVal.

(** [os.environ] *)
Variable os_environ : gmap string string.

Definition call_load_global_config (paths : PyVal) : Py (gmap string PyVal) :=
  fun w => (load_global_config paths,
            with_loader_calls w (loader_calls w ++ [paths])).

Definition call_format_keys (val variables : PyVal) : Py PyVal :=
  fun w => (format_keys val variables,
            with_formatter_calls w (formatter_calls w ++ [(val, variables)])).

(** [Box({"tavern": {"env_vars": dict(os.environ)}})] *)
Definition tavern_box : PyVal :=
  VDict {[ "tavern" := VDict {[ "env_vars" := VDict (VStr <$> os_environ) ]} ]}.

Definition valid_keys : list PyVal :=
  [VStr "body"; VStr "headers"; VStr "redirect_query_params"].

(** [any(i not in valid_keys for i in strict)] *)
Definition any_invalid (strict : list PyVal) : bool :=
  existsb (fun i => negb (py_in i valid_keys)) strict.

(** The [try: ... except KeyError: ... else: ...] block on ["variables"]. *)
Definition format_variables (global_cfg : gmap string PyVal)
    : Py (gmap string PyVal) :=
  match global_cfg !! "variables" with
  | None =>
      do logger_debug "Nothing to format in global config files" [] then
      ret global_cfg
  | Some loaded_variables =>
      let* formatted := call_format_keys loaded_variables tavern_box in
      ret (<["variables" := formatted]> global_cfg)
  end.

(** The check on the resolved [strict] value; the [match] is
    [isinstance(strict, list)]. *)
Definition check_strict (strict : PyVal) : Py unit :=
  match strict with
  | VList entries =>
      if any_invalid entries then
        raise (InvalidConfigurationException
                 "Invalid values for 'strict' given - expected one of {}, got {}"
                 [VList valid_keys; strict])
      else ret tt
  | _ => ret tt
  end.

(** [global_cfg["backends"][b] = in_use] *)
Definition set_backend (b : string) (in_use : PyVal)
    (global_cfg : gmap string PyVal) : Py (gmap string PyVal) :=
  match global_cfg !! "backends" with
  | Some (VDict d) => ret (<["backends" := VDict (<[b := in_use]> d)]> global_cfg)
  | Some _ => raise TypeError
  | None => raise (KeyError "backends")
  end.

(** The choice between the ini value and the command-line value. *)
Definition backend_in_use (ini_opt cli_opt : PyVal) : PyVal :=
  let in_use := ini_opt in
  if truthy cli_opt && py_ne cli_opt ini_opt then cli_opt else in_use.

(** Body of the [for b in backends] loop. *)
Definition resolve_backend (pytest_config : PytestConfig) (b : string)
    (global_cfg : gmap string PyVal) : Py (gmap string PyVal) :=
  let* ini_opt := getini pytest_config ("tavern-" +:+ b +:+ "-backend") in
  let* cli_opt := getoption pytest_config ("tavern_" +:+ b +:+ "_backend") in
  set_backend b (backend_in_use ini_opt cli_opt) global_cfg.

(** The function under the decorator (Python's [__wrapped__]). *)
Definition load_global_cfg_wrapped (pytest_config : PytestConfig)
    : Py (gmap string PyVal) :=
  let* ini_raw := getini pytest_config "tavern-global-cfg" in
  let ini_global_cfg_paths := py_or ini_raw (VList []) in
  let* cli_raw := getoption pytest_config "tavern_global_cfg" in
  let cmdline_global_cfg_paths := py_or cli_raw (VList []) in
  let* all_paths := lift (py_add ini_global_cfg_paths cmdline_global_cfg_paths) in
  let* global_cfg := call_load_global_config all_paths in
  let* global_cfg := format_variables global_cfg in
  let* strict := get_option_generic pytest_config "tavern-strict" (VList []) in
  do check_strict strict then
  let global_cfg := <["strict" := strict]> global_cfg in
  let global_cfg := <["backends" := VDict ∅]> global_cfg in
  let backends := ["http"; "mqtt"] in
  let* global_cfg := for_each backends (resolve_backend pytest_config) global_cfg in
  do logger_debug "Global config: %s" [VDict global_cfg] then
  ret global_cfg.

(** *** The [lru_cache()] decorator

    [functools.lru_cache()] with its default [maxsize=128]: a hit moves
    the entry to the most-recently-used end and returns the stored
    object; a miss runs the function, stores the result if the function
    returned normally (an exception is not cached) and, when the cache
    is full, drops the least recently used entry. *)

Definition maxsize : nat := 128.

Fixpoint cache_find (key : nat) (c : list (nat * gmap string PyVal))
    : option (gmap string PyVal) :=
  match c with
  | [] => None
  | (k, v) :: rest => if Nat.eqb k key then Some v else cache_find key rest
  end.

Fixpoint cache_remove (key : nat) (c : list (nat * gmap string PyVal))
    : list (nat * gmap string PyVal) :=
  match c with
  | [] => []
  | (k, v) :: rest =>
      if Nat.eqb k key then cache_remove key rest
      else (k, v) :: cache_remove key rest
  end.

Definition load_global_cfg (pytest_config : PytestConfig)
    : Py (gmap string PyVal) :=
  fun w =>
    let key := config_id pytest_config in
    match cache_find key (lru w) with
    | Some result =>
        (Ok result, with_lru w ((key, result) :: cache_remove key (lru w)))
    | None =>
        match load_global_cfg_wrapped pytest_config w with
        | (Ok result, w') =>
            (Ok result, with_lru w' (take maxsize ((key, result) :: lru w')))
        | (Raise e, w') => (Raise e, w')
        end
    end.

End Loader.

(** ** Derived notions used in the statements *)

(** The value [all_paths] that the loader is called with. *)
Definition all_paths_of (pytest_config : PytestConfig) : Result PyVal :=
  py_add (py_or (ini_values pytest_config "tavern-global-cfg") (VList []))
         (py_or (option_values pytest_config "tavern_global_cfg") (VList [])).

(** The three tiers of the specification, on values: the ini value unless
    it is absent, else the command-line value unless it is absent, else
    the default. *)
Definition three_tier (ini cli default : PyVal) : PyVal :=
  if is_not_None ini then ini else if is_not_None cli then cli else default.

(** The value [strict] resolves to. *)
Definition strict_of (pytest_config : PytestConfig) : PyVal :=
  three_tier (ini_values pytest_config "tavern_strict")
             (option_values pytest_config "tavern-strict") (VList []).

(** The dictionary left under ["backends"]. *)
Definition backends_of (pytest_config : PytestConfig) : gmap string PyVal :=
  <["mqtt" := backend_in_use (ini_values pytest_config "tavern-mqtt-backend")
                             (option_values pytest_config "tavern_mqtt_backend")]>
  (<["http" := backend_in_use (ini_values pytest_config "tavern-http-backend")
                              (option_values pytest_config "tavern_http_backend")]> ∅).

(** The settings object built from the (formatted) document [g]. *)
Definition settings (pytest_config : PytestConfig) (g : gmap string PyVal)
    : gmap string PyVal :=
  <["backends" := VDict (backends_of pytest_config)]>
    (<["strict" := strict_of pytest_config]> g).

(** The resolved [strict] passes the check: it is not a list, or none of
    its entries is invalid. *)
Definition strict_ok (strict : PyVal) : bool :=
  match strict with
  | VList entries => negb (any_invalid entries)
  | _ => true
  end.

(** The exception of the check. *)
Definition strict_exception (strict : PyVal) : PyExc :=
  InvalidConfigurationException
    "Invalid values for 'strict' given - expected one of {}, got {}"
    [VList valid_keys; strict].

(** The two records the function sends to the logger. *)
Definition nothing_to_format : LogRecord :=
  mkLog DEBUG "Nothing to format in global config files" [].
Definition global_config_record (d : gmap string PyVal) : LogRecord :=
  mkLog DEBUG "Global config: %s" [VDict d].

(** [w] with further entries at the end of each of its traces. *)
Definition extend (w : World) (qs : list Query) (ls : list PyVal)
    (fs : list (PyVal * PyVal)) (gs : list LogRecord) : World :=
  mkWorld (queries w ++ qs) (loader_calls w ++ ls) (formatter_calls w ++ fs)
          (log w ++ gs) (lru w).

(** [v[key]] when [v] is a dictionary that has [key]. *)
Definition py_getitem (v : PyVal) (key : string) : option PyVal :=
  match v with
  | VDict d => d !! key
  | _ => None
  end.

(** [v[k1][k2]...] *)
Fixpoint py_path (v : PyVal) (keys : list string) : option PyVal :=
  match keys with
  | [] => Some v
  | key :: rest =>
      match py_getitem v key with
      | Some inner => py_path inner rest
      | None => None
      end
  end.

(** The list of paths an option store stands for: its list, or no path at
    all when the store has no value. *)
Definition path_list (v : PyVal) : option (list PyVal) :=
  match v with
  | VNone => Some []
  | VList l => Some l
  | _ => None
  end.

(** [add_parser_options] with the ["default"] keyword of the two backend
    options erased. *)
Definition is_backend_flag (flag : string) : bool :=
  String.eqb flag "--tavern-http-backend" || String.eqb flag "--tavern-mqtt-backend".

Definition erase_backend_default (c : AddOption) : AddOption :=
  if is_backend_flag (opt_flag c) then
    mkAddOption (opt_flag c)
      (List.filter (fun kv => negb (String.eqb (fst kv) "default")) (opt_kwargs c))
  else c.

(** The lookups of the three parts of [load_global_cfg]: the paths, the
    [strict] value (through [get_option_generic]) and the backends. *)
Definition path_queries : list Query :=
  [QIni "tavern-global-cfg"; QOption "tavern_global_cfg"].

Definition strict_queries (pytest_config : PytestConfig) : list Query :=
  match ini_values pytest_config "tavern_strict" with
  | VNone =>
      match option_values pytest_config "tavern-strict" with
      | VNone => [QIni "tavern_strict"; QOption "tavern-strict"]
      | _ => [QIni "tavern_strict"; QOption "tavern-strict"; QOption "tavern-strict"]
      end
  | _ => [QIni "tavern_strict"; QIni "tavern_strict"]
  end.

Definition backend_queries : list Query :=
  [QIni "tavern-http-backend"; QOption "tavern_http_backend";
   QIni "tavern-mqtt-backend"; QOption "tavern_mqtt_backend"].



(** The handle has no entry in the cache. *)
Definition not_cached (pytest_config : PytestConfig) (w : World) : Prop :=
  cache_find (config_id pytest_config) (lru w) = None.

(** ** A concrete scenario

    A file loader, a formatter, an environment and a few configuration
    objects on which the statements below are exercised. *)

(** An option store given by a finite table; names outside it have no value. *)
Definition store (table : gmap string PyVal) (name : string) : PyVal :=
  default VNone (table !! name).

Definition demo_document : gmap string PyVal :=
  {[ "variables" := VDict {[ "host" := VStr "{tavern.env_vars.HOST}" ]};
     "stages" := VList [VStr "login"] ]}.

(** No paths give the empty document, a list of paths gives
    [demo_document], anything else is refused. *)
Definition demo_loader (paths : PyVal) : Result (gmap string PyVal) :=
  match paths with
  | VList [] => Ok ∅
  | VList (_ :: _) => Ok demo_document
  | _ => Raise (CollaboratorError paths)
  end.

Definition demo_formatter (val variables : PyVal) : Result PyVal :=
  Ok (VList [VStr "formatted"; val]).

Definition demo_environ : gmap string string := {[ "HOST" := "example.org" ]}.

(** Paths in both stores, http backend overridden on the command line. *)
Definition cfg_full : PytestConfig :=
  mkConfig 1
    (store {[ "tavern-global-cfg" := VList [VStr "common.yaml"];
              "tavern-http-backend" := VStr "requests";
              "tavern-mqtt-backend" := VStr "paho-mqtt";
              "tavern_strict" := VList [VStr "body"; VStr "redirect_query_params"] ]})
    (store {[ "tavern_global_cfg" := VList [VStr "local.yaml"];
              "tavern_http_backend" := VStr "custom" ]}).

(** Nothing but the ini http backend. *)
Definition cfg_ini_only : PytestConfig :=
  mkConfig 2 (store {[ "tavern-http-backend" := VStr "requests" ]}) (store ∅).

(** A strict value that is not one of the valid keys. *)
Definition cfg_bad_strict : PytestConfig :=
  mkConfig 3 (store {[ "tavern_strict" := VList [VStr "body"; VStr "bogus"] ]}) (store ∅).

(** The third strict value spelled with hyphens. *)
Definition cfg_hyphen_strict : PytestConfig :=
  mkConfig 4 (store ∅) (store {[ "tavern-strict" := VList [VStr "redirect-query-params"] ]}).

(** An empty string given for the http backend on the command line. *)
Definition cfg_empty_cli_backend : PytestConfig :=
  mkConfig 5 (store {[ "tavern-http-backend" := VStr "requests" ]})
             (store {[ "tavern_http_backend" := VStr "" ]}).

(** A configuration object with identity [n] and no option set. *)
Definition cfg_numbered (n : nat) : PytestConfig := mkConfig n (store ∅) (store ∅).

Definition demo_load_global_cfg : PytestConfig -> Py (gmap string PyVal) :=
  load_global_cfg demo_loader demo_formatter demo_environ.

(** Run [load_global_cfg] on each handle of a list in turn, ignoring results. *)
Fixpoint demo_calls (handles : list PytestConfig) (w : World) : World :=
  match handles with
  | [] => w
  | h :: rest => demo_calls rest (snd (demo_load_global_cfg h w))
  end.

(** The result and the world of a first call in a fresh process. *)
Definition demo_result (pytest_config : PytestConfig) : Result (gmap string PyVal) :=
  fst (demo_load_global_cfg pytest_config initial_world).
Definition demo_world (pytest_config : PytestConfig) : World :=
  snd (demo_load_global_cfg pytest_config initial_world).

(** The settings expected for [cfg_full]. *)
Definition full_settings : gmap string PyVal :=
  {[ "variables" :=
       VList [VStr "formatted"; VDict {[ "host" := VStr "{tavern.env_vars.HOST}" ]}];
     "stages" := VList [VStr "login"];
     "strict" := VList [VStr "body"; VStr "redirect_query_params"];
     "backends" := VDict {[ "http" := VStr "custom"; "mqtt" := VStr "paho-mqtt" ]} ]}.

(** The settings expected when nothing but the ini http backend is set,
    with or without an empty command-line value for it. *)
Definition ini_only_settings : gmap string PyVal :=
  {[ "strict" := VList [];
     "backends" := VDict {[ "http" := VStr "requests"; "mqtt" := VNone ]} ]}.

(** A formatter that always fails. *)
Definition failing_formatter (val variables : PyVal) : Result PyVal :=
  Raise (CollaboratorError val).

(** A single path given as a plain string in the ini store. *)
Definition cfg_string_path : PytestConfig :=
  mkConfig 6 (store {[ "tavern-global-cfg" := VStr "common.yaml" ]}) (store ∅).

(** A plain string in both stores: their concatenation is not a list of
    paths and [demo_loader] refuses it. *)
Definition cfg_string_paths : PytestConfig :=
  mkConfig 7 (store {[ "tavern-global-cfg" := VStr "common.yaml" ]})
             (store {[ "tavern_global_cfg" := VStr "local.yaml" ]}).

(** A [strict] value that is a string, not a list. *)
Definition cfg_string_strict : PytestConfig :=
  mkConfig 8 (store {[ "tavern_strict" := VStr "bogus" ]}) (store ∅).

(** Paths given, and a [strict] value that is refused. *)
Definition cfg_paths_bad_strict : PytestConfig :=
  mkConfig 9 (store {[ "tavern-global-cfg" := VList [VStr "common.yaml"];
                       "tavern_strict" := VList [VStr "bogus"] ]}) (store ∅).

(** The ini store asks for a custom http backend while the command-line
    store holds the defaults registered with [with_defaults] on. *)
Definition cfg_cli_defaults : PytestConfig :=
  mkConfig 10 (store {[ "tavern-http-backend" := VStr "custom" ]})
              (store {[ "tavern_http_backend" := VStr "requests";
                        "tavern_mqtt_backend" := VStr "paho-mqtt" ]}).

Definition cli_defaults_settings : gmap string PyVal :=
  {[ "strict" := VList [];
     "backends" := VDict {[ "http" := VStr "requests"; "mqtt" := VStr "paho-mqtt" ]} ]}.

(** ** Running the loader: helper lemmas *)

Section Properties.

Variable load_global_config : PyVal -> Result (gmap string PyVal).
Variable format_keys : PyVal -> PyVal -> Result PyVal.
Variable os_environ : gmap string string.

Abbreviation wrapped := (load_global_cfg_wrapped load_global_config format_keys os_environ).
Abbreviation cached := (load_global_cfg load_global_config format_keys os_environ).
Abbreviation box := (tavern_box os_environ).

Ltac py_unfold :=
  unfold get_option_generic, format_variables, check_strict, call_load_global_config,
    call_format_keys, logger_debug, getini, getoption, bind, ret, raise, lift in *.

Lemma get_option_generic_run cfg flag default w :
  exists qs,
    get_option_generic cfg flag default w =
    (Ok (three_tier (ini_values cfg (str_replace "-" "_" flag))
                    (option_values cfg flag) default),
     with_queries w (queries w ++ qs)).
Proof.
  unfold three_tier. py_unfold. cbn.
  destruct (is_not_None (ini_values cfg _)); cbn.
  - eexists. unfold with_queries; cbn. rewrite <- app_assoc. reflexivity.
  - destruct (is_not_None (option_values cfg flag)); cbn;
      eexists; unfold with_queries; cbn; rewrite <- !app_assoc; reflexivity.
Qed.

Lemma backends_loop cfg (g : gmap string PyVal) w :
  exists qs,
    for_each ["http"; "mqtt"] (resolve_backend cfg) (<["backends" := VDict ∅]> g) w
    = (Ok (<["backends" := VDict (backends_of cfg)]> g),
       with_queries w (queries w ++ qs)).
Proof.
  eexists. unfold for_each, resolve_backend, bind, getini, getoption, set_backend, ret.
  cbn -[insert lookup].
  rewrite lookup_insert_eq. cbn -[insert lookup].
  rewrite lookup_insert_eq. cbn -[insert lookup].
  rewrite !insert_insert_eq. unfold backends_of, with_queries. cbn -[insert lookup].
  rewrite <- !app_assoc. reflexivity.
Qed.

(** What the statements after the formatting step do to a document. *)
Lemma finish_run cfg (g : gmap string PyVal) w :
  let tail :=
    (let* strict := get_option_generic cfg "tavern-strict" (VList []) in
     do check_strict strict then
     let global_cfg := <["strict" := strict]> g in
     let global_cfg := <["backends" := VDict ∅]> global_cfg in
     let* global_cfg := for_each ["http"; "mqtt"] (resolve_backend cfg) global_cfg in
     do logger_debug "Global config: %s" [VDict global_cfg] then
     ret global_cfg) in
  exists qs,
    tail w =
    if strict_ok (strict_of cfg) then
      (Ok (settings cfg g), extend w qs [] [] [global_config_record (settings cfg g)])
    else
      (Raise (strict_exception (strict_of cfg)), extend w qs [] [] []).
Proof.
  intros tail. subst tail.
  destruct (get_option_generic_run cfg "tavern-strict" (VList []) w) as [q1 H1].
  change (str_replace "-" "_" "tavern-strict") with "tavern_strict" in H1.
  fold (strict_of cfg) in H1.
  unfold bind at 1. rewrite H1.
  set (w1 := with_queries w (queries w ++ q1)).
  assert (Hgo : exists qs,
    (do ret tt then
     let global_cfg := <["strict" := strict_of cfg]> g in
     let global_cfg := <["backends" := VDict ∅]> global_cfg in
     let* global_cfg := for_each ["http"; "mqtt"] (resolve_backend cfg) global_cfg in
     do logger_debug "Global config: %s" [VDict global_cfg] then
     ret global_cfg) w1 =
    (Ok (settings cfg g), extend w qs [] [] [global_config_record (settings cfg g)])).
  { destruct (backends_loop cfg (<["strict" := strict_of cfg]> g) w1) as [q2 H2].
    exists (q1 ++ q2)%list. unfold bind at 1. unfold ret at 1. cbv zeta.
    unfold bind at 1. rewrite H2. unfold bind, logger_debug, ret.
    subst w1. unfold extend, with_log, with_queries, settings, global_config_record.
    cbn -[insert]. rewrite <- app_assoc, !app_nil_r. reflexivity. }
  destruct Hgo as [qs Hgo].
  unfold check_strict, strict_ok.
  destruct (strict_of cfg) as [| | | |entries|] eqn:Es;
    try (exists qs; exact Hgo).
  destruct (any_invalid entries) eqn:Ei; cbn.
  - exists q1. unfold bind, raise, extend, with_queries. subst w1. cbn.
    rewrite !app_nil_r. reflexivity.
  - exists qs. exact Hgo.
Qed.

Lemma wrapped_run cfg w :
  exists qs,
    wrapped cfg w =
    match all_paths_of cfg with
    | Raise e => (Raise e, extend w qs [] [] [])
    | Ok p =>
        match load_global_config p with
        | Raise e => (Raise e, extend w qs [p] [] [])
        | Ok doc =>
            match doc !! "variables" with
            | None =>
                if strict_ok (strict_of cfg) then
                  (Ok (settings cfg doc),
                   extend w qs [p] []
                     [nothing_to_format; global_config_record (settings cfg doc)])
                else
                  (Raise (strict_exception (strict_of cfg)),
                   extend w qs [p] [] [nothing_to_format])
            | Some v =>
                match format_keys v box with
                | Raise e => (Raise e, extend w qs [p] [(v, box)] [])
                | Ok f =>
                    let g := <["variables" := f]> doc in
                    if strict_ok (strict_of cfg) then
                      (Ok (settings cfg g),
                       extend w qs [p] [(v, box)] [global_config_record (settings cfg g)])
                    else
                      (Raise (strict_exception (strict_of cfg)),
                       extend w qs [p] [(v, box)] [])
                end
            end
        end
    end.
Proof.
  unfold load_global_cfg_wrapped.
  unfold bind at 1, getini at 1. unfold bind at 1, getoption at 1.
  unfold bind at 1, lift at 1. fold (all_paths_of cfg).
  destruct (all_paths_of cfg) as [p|e].
  2:{ exists [QIni "tavern-global-cfg"; QOption "tavern_global_cfg"]. unfold extend, with_queries; cbn. rewrite !app_nil_r, <- app_assoc. reflexivity. }
  unfold bind at 1, call_load_global_config at 1.
  destruct (load_global_config p) as [doc|e].
  2:{ exists [QIni "tavern-global-cfg"; QOption "tavern_global_cfg"]. unfold extend, with_queries, with_loader_calls; cbn.
      rewrite !app_nil_r, <- app_assoc. reflexivity. }
  unfold bind at 1, format_variables at 1.
  destruct (doc !! "variables") as [v|].
  - unfold bind at 1, call_format_keys at 1.
    destruct (format_keys v box) as [f|e].
    2:{ exists [QIni "tavern-global-cfg"; QOption "tavern_global_cfg"]. unfold extend, with_queries, with_loader_calls, with_formatter_calls; cbn.
        rewrite !app_nil_r, <- app_assoc. reflexivity. }
    unfold ret at 1.
    match goal with |- context [ bind (get_option_generic _ _ _) _ ?w0 ] =>
      destruct (finish_run cfg (<["variables" := f]> doc) w0) as [q H] end.
    cbv zeta in H. rewrite H. clear H.
    exists ([QIni "tavern-global-cfg"; QOption "tavern_global_cfg"] ++ q)%list.
    destruct (strict_ok (strict_of cfg));
      unfold extend, with_queries, with_loader_calls, with_formatter_calls; cbn;
      rewrite ?app_nil_r, <- ?app_assoc; reflexivity.
  - unfold bind at 1, logger_debug at 1. unfold ret at 1.
    match goal with |- context [ bind (get_option_generic _ _ _) _ ?w0 ] =>
      destruct (finish_run cfg doc w0) as [q H] end.
    cbv zeta in H. rewrite H. clear H.
    exists ([QIni "tavern-global-cfg"; QOption "tavern_global_cfg"] ++ q)%list.
    destruct (strict_ok (strict_of cfg));
      unfold extend, with_queries, with_loader_calls, with_log; cbn;
      rewrite ?app_nil_r, <- ?app_assoc; reflexivity.
Qed.


Lemma cached_miss cfg w :
  not_cached cfg w ->
  cached cfg w =
  match wrapped cfg w with
  | (Ok result, w') =>
      (Ok result, with_lru w' (take maxsize ((config_id cfg, result) :: lru w')))
  | (Raise e, w') => (Raise e, w')
  end.
Proof. intros H. unfold load_global_cfg. rewrite H. reflexivity. Qed.

Lemma py_eq_str s v : py_eq (VStr s) v = true <-> v = VStr s.
Proof.
  destruct v; cbn; split; try discriminate.
  - intros H. apply String.eqb_eq in H. congruence.
  - intros [= ->]. apply String.eqb_refl.
Qed.

Lemma py_in_valid_keys i : py_in i valid_keys = true <-> i ∈ valid_keys.
Proof using.
  clear load_global_config format_keys os_environ.
  unfold py_in, valid_keys. cbn [existsb]. rewrite !orb_true_iff, !py_eq_str.
  rewrite !elem_of_cons, elem_of_nil. intuition discriminate.
Qed.

Lemma any_invalid_true entries :
  any_invalid entries = true <-> exists i, i ∈ entries /\ i ∉ valid_keys.
Proof using.
  unfold any_invalid. rewrite existsb_exists. split.
  - intros (i & Hi & Hn). exists i. split; [by apply list_elem_of_In|].
    intros Hv. apply py_in_valid_keys in Hv. rewrite Hv in Hn. discriminate.
  - intros (i & Hi & Hn). exists i. split; [by apply list_elem_of_In|].
    destruct (py_in i valid_keys) eqn:E; [|reflexivity].
    apply py_in_valid_keys in E. contradiction.
Qed.

Lemma str_replace_length old new s :
  String.length (str_replace old new s) = String.length s.
Proof. induction s as [|c s IH]; cbn; [reflexivity | by rewrite IH]. Qed.

Lemma str_replace_get old new s i :
  String.get i (str_replace old new s) =
  (fun c => if Ascii.eqb c old then new else c) <$> String.get i s.
Proof.
  revert i. induction s as [|c s IH]; intros i; cbn; [reflexivity|].
  destruct i as [|i]; [reflexivity | apply IH].
Qed.

Lemma cached_miss_ok cfg w d w' :
  not_cached cfg w -> cached cfg w = (Ok d, w') ->
  exists w1, wrapped cfg w = (Ok d, w1) /\
    w' = with_lru w1 (take maxsize ((config_id cfg, d) :: lru w1)).
Proof.
  intros Hn H. rewrite (cached_miss _ _ Hn) in H.
  destruct (wrapped cfg w) as [[r|e] w1]; [|discriminate].
  injection H as -> <-. eauto.
Qed.

(** A normal return of the wrapped function, traced back to the document
    the file loader produced. *)
Lemma wrapped_ok_inv cfg w d w1 :
  wrapped cfg w = (Ok d, w1) ->
  exists p doc g,
    all_paths_of cfg = Ok p /\ load_global_config p = Ok doc /\
    d = settings cfg g /\ strict_ok (strict_of cfg) = true /\
    (doc !! "variables" = None /\ g = doc \/
     exists v f, doc !! "variables" = Some v /\ format_keys v box = Ok f /\
                 g = <["variables" := f]> doc).
Proof.
  intros H. destruct (wrapped_run cfg w) as [qs Hr]. rewrite Hr in H. clear Hr.
  destruct (all_paths_of cfg) as [p|]; [|discriminate].
  destruct (load_global_config p) as [doc|] eqn:El; [|discriminate].
  exists p, doc.
  destruct (doc !! "variables") as [v|] eqn:Ev.
  - destruct (format_keys v box) as [f|] eqn:Ef; [|discriminate].
    cbv zeta in H. destruct (strict_ok (strict_of cfg)); [|discriminate].
    injection H as <- _. exists (<["variables" := f]> doc).
    repeat split; try reflexivity; try assumption. right. eauto.
  - destruct (strict_ok (strict_of cfg)); [|discriminate].
    injection H as <- _. exists doc.
    repeat split; try reflexivity; try assumption. left. eauto.
Qed.

Lemma settings_backends cfg (g : gmap string PyVal) :
  settings cfg g !! "backends" = Some (VDict (backends_of cfg)).
Proof. unfold settings. apply lookup_insert_eq. Qed.

Lemma settings_strict cfg (g : gmap string PyVal) :
  settings cfg g !! "strict" = Some (strict_of cfg).
Proof. unfold settings. rewrite lookup_insert_ne by done. apply lookup_insert_eq. Qed.

Lemma settings_other cfg (g : gmap string PyVal) k :
  k ≠ "strict" -> k ≠ "backends" -> settings cfg g !! k = g !! k.
Proof. intros. unfold settings. by rewrite !lookup_insert_ne. Qed.

Lemma strict_of_resolved cfg w :
  fst (get_option_generic cfg "tavern-strict" (VList []) w) = Ok (strict_of cfg).
Proof.
  destruct (get_option_generic_run cfg "tavern-strict" (VList []) w) as [qs ->].
  reflexivity.
Qed.

Lemma all_paths_of_lists cfg a b :
  path_list (ini_values cfg "tavern-global-cfg") = Some a ->
  path_list (option_values cfg "tavern_global_cfg") = Some b ->
  all_paths_of cfg = Ok (VList (a ++ b)).
Proof.
  unfold all_paths_of, path_list, py_or.
  destruct (ini_values cfg _) as [| | | |l1|]; try discriminate;
    destruct (option_values cfg _) as [| | | |l2|]; try discriminate;
    intros [= <-] [= <-]; try destruct l1; try destruct l2; cbn;
    rewrite ?app_nil_r; reflexivity.
Qed.

Lemma wrapped_loader_calls cfg w p :
  all_paths_of cfg = Ok p ->
  loader_calls (snd (wrapped cfg w)) = (loader_calls w ++ [p])%list.
Proof.
  intros Hp. destruct (wrapped_run cfg w) as [qs ->]. rewrite Hp.
  destruct (load_global_config p) as [doc|]; [|reflexivity].
  destruct (doc !! "variables") as [v|].
  - destruct (format_keys v box); [|reflexivity].
    cbv zeta. destruct (strict_ok _); reflexivity.
  - destruct (strict_ok _); reflexivity.
Qed.

Lemma wrapped_lru cfg w : lru (snd (wrapped cfg w)) = lru w.
Proof.
  destruct (wrapped_run cfg w) as [qs ->].
  destruct (all_paths_of cfg) as [p|]; [|reflexivity].
  destruct (load_global_config p) as [doc|]; [|reflexivity].
  destruct (doc !! "variables") as [v|].
  - destruct (format_keys v box); [|reflexivity].
    cbv zeta. destruct (strict_ok _); reflexivity.
  - destruct (strict_ok _); reflexivity.
Qed.

Lemma cached_hit cfg w r :
  cache_find (config_id cfg) (lru w) = Some r ->
  cached cfg w =
  (Ok r, with_lru w ((config_id cfg, r) :: cache_remove (config_id cfg) (lru w))).
Proof. intros H. unfold load_global_cfg. rewrite H. reflexivity. Qed.

Lemma cache_remove_shorter key c r :
  cache_find key c = Some r ->
  List.length (cache_remove key c) < List.length c.
Proof.
  assert (Hle : forall c', List.length (cache_remove key c') <= List.length c').
  { induction c' as [|[k v] c' IH]; cbn; [lia|]. destruct (Nat.eqb k key); cbn; lia. }
  induction c as [|[k v] c IH]; cbn; [discriminate|].
  destruct (Nat.eqb k key); cbn.
  - intros _. specialize (Hle c). lia.
  - intros H. specialize (IH H). lia.
Qed.

(** ** The option resolver *)

(** C1. For every flag and every default, [get_option_generic] returns the
    ini value when the ini store has a value (anything but [None], so an
    empty list or [False] counts), otherwise the command-line value when
    that store has one, otherwise the default itself, whatever it is. *)
Theorem get_option_generic_precedence cfg flag default w :
  fst (get_option_generic cfg flag default w) =
  Ok (match ini_values cfg (str_replace "-" "_" flag) with
      | VNone =>
          match option_values cfg flag with
          | VNone => default
          | cli => cli
          end
      | ini => ini
      end).
Proof.
  destruct (get_option_generic_run cfg flag default w) as [qs ->]. cbn.
  unfold three_tier.
  destruct (ini_values cfg _); try reflexivity.
  destruct (option_values cfg flag); reflexivity.
Qed.

(** C9. [get_option_generic] looks the ini store up under the flag with
    every ["-"] turned into ["_"] and the command-line store under the
    flag as given, and makes no other lookup; for ["tavern-strict"] the ini
    key is ["tavern_strict"]. *)
Theorem get_option_generic_lookup_keys cfg flag default w :
  let ini_key := str_replace "-" "_" flag in
  queries (snd (get_option_generic cfg flag default w)) =
    (queries w ++
     match ini_values cfg ini_key with
     | VNone =>
         match option_values cfg flag with
         | VNone => [QIni ini_key; QOption flag]
         | _ => [QIni ini_key; QOption flag; QOption flag]
         end
     | _ => [QIni ini_key; QIni ini_key]
     end)%list
  /\ String.length ini_key = String.length flag
  /\ (forall i, String.get i ini_key =
                (fun c => if Ascii.eqb c "-" then "_"%char else c) <$> String.get i flag)
  /\ str_replace "-" "_" "tavern-strict" = "tavern_strict".
Proof.
  intros ini_key. repeat split.
  - py_unfold. cbn. fold ini_key.
    destruct (ini_values cfg ini_key); cbn; rewrite <- ?app_assoc; try reflexivity.
    destruct (option_values cfg flag); cbn; rewrite <- ?app_assoc; reflexivity.
  - apply str_replace_length.
  - apply str_replace_get.
Qed.

(** ** Option registration *)

(** C7. [add_parser_options] registers the http and mqtt backend options
    with defaults ["requests"] and ["paho-mqtt"] when [with_defaults] is
    true and with default [None] when it is false; apart from those two
    defaults the registrations are the same. *)
Theorem add_parser_options_backend_defaults (with_defaults : bool) :
  (opt_kwargs <$> registered "--tavern-http-backend" (add_parser_options with_defaults))
    ≫= kwarg "default"
  = Some (if with_defaults then VStr "requests" else VNone)
  /\ (opt_kwargs <$> registered "--tavern-mqtt-backend" (add_parser_options with_defaults))
        ≫= kwarg "default"
      = Some (if with_defaults then VStr "paho-mqtt" else VNone)
  /\ erase_backend_default <$> add_parser_options with_defaults
      = erase_backend_default <$> add_parser_options (negb with_defaults)
  /\ opt_flag <$> add_parser_options with_defaults
      = ["--tavern-global-cfg"; "--tavern-http-backend"; "--tavern-mqtt-backend";
         "--tavern-strict"; "--tavern-beta-new-traceback"; "--tavern-file-path-regex"].
Proof. destruct with_defaults; repeat split; reflexivity. Qed.

(** ** The loader *)

(** C2, with the third valid value spelled as the code spells it:
    [strict] is what [get_option_generic] resolves ["tavern-strict"] to
    with default [[]]; when that is a list with an entry outside
    [body, headers, redirect_query_params], [load_global_cfg] raises the
    configuration error, whose message is formatted from the valid keys and
    the given list, instead of returning; when every entry is one of the
    three, it returns settings that hold the list under ["strict"].  The
    file loader and the formatter are taken not to raise. *)
Theorem strict_validation cfg w p doc entries :
  not_cached cfg w ->
  all_paths_of cfg = Ok p ->
  load_global_config p = Ok doc ->
  (forall v, doc !! "variables" = Some v -> exists f, format_keys v box = Ok f) ->
  fst (get_option_generic cfg "tavern-strict" (VList []) w) = Ok (VList entries) ->
  ((exists i, i ∈ entries /\ i ∉ [VStr "body"; VStr "headers"; VStr "redirect_query_params"]) ->
   fst (cached cfg w) =
   Raise (InvalidConfigurationException
            "Invalid values for 'strict' given - expected one of {}, got {}"
            [VList [VStr "body"; VStr "headers"; VStr "redirect_query_params"];
             VList entries]))
  /\ ((forall i, i ∈ entries ->
                 i ∈ [VStr "body"; VStr "headers"; VStr "redirect_query_params"]) ->
      exists d, fst (cached cfg w) = Ok d /\ d !! "strict" = Some (VList entries)).
Proof.
  intros Hn Hp Hl Hf Hs.
  rewrite strict_of_resolved in Hs. injection Hs as Hs.
  rewrite (cached_miss _ _ Hn).
  destruct (wrapped_run cfg w) as [qs ->].
  rewrite Hp, Hl, Hs. fold valid_keys. unfold strict_ok, strict_exception.
  split.
  - intros Hbad. apply any_invalid_true in Hbad. rewrite Hbad. cbn.
    destruct (doc !! "variables") as [v|] eqn:Ev; [|reflexivity].
    destruct (Hf v eq_refl) as [f ->]. reflexivity.
  - intros Hall.
    assert (Hgood : any_invalid entries = false).
    { destruct (any_invalid entries) eqn:E; [|reflexivity].
      apply any_invalid_true in E. destruct E as (i & Hi & Hni).
      destruct Hni. by apply Hall. }
    rewrite Hgood. cbn.
    destruct (doc !! "variables") as [v|] eqn:Ev.
    + destruct (Hf v eq_refl) as [f ->]. cbn. eexists. split; [reflexivity|].
      by rewrite settings_strict, Hs.
    + cbn. eexists. split; [reflexivity|]. by rewrite settings_strict, Hs.
Qed.

(** C3, with "present" made precise.  For each of the backends [http] and
    [mqtt], the settings that [load_global_cfg] returns hold, under
    ["backends"], the ini value, replaced by the command-line value when
    that is truthy (the code tests [if cli_opt], so [None] and the empty
    string do not count) and differs from the ini value.  With ini http
    backend ["requests"] the result is ["requests"] when the command line
    gives nothing and ["custom"] when the command line gives ["custom"]. *)
Theorem backends_resolution cfg w d w' :
  not_cached cfg w ->
  cached cfg w = (Ok d, w') ->
  let ini b := ini_values cfg ("tavern-" +:+ b +:+ "-backend") in
  let cli b := option_values cfg ("tavern_" +:+ b +:+ "_backend") in
  exists bk : gmap string PyVal,
    d !! "backends" = Some (VDict bk)
    /\ dom bk = {[ "http"; "mqtt" ]}
    /\ (forall b, b ∈ ["http"; "mqtt"] ->
        bk !! b = Some (if truthy (cli b) && py_ne (cli b) (ini b)
                        then cli b else ini b))
    /\ (ini "http" = VStr "requests" -> cli "http" = VNone ->
        bk !! "http" = Some (VStr "requests"))
    /\ (ini "http" = VStr "requests" -> cli "http" = VStr "custom" ->
        bk !! "http" = Some (VStr "custom")).
Proof.
  intros Hn H ini cli.
  destruct (cached_miss_ok _ _ _ _ Hn H) as (w1 & Hw & _).
  destruct (wrapped_ok_inv _ _ _ _ Hw) as (p & doc & g & _ & _ & -> & _ & _).
  exists (backends_of cfg).
  assert (Hh : backends_of cfg !! "http" =
               Some (backend_in_use (ini "http") (cli "http"))).
  { unfold backends_of. rewrite lookup_insert_ne by done. apply lookup_insert_eq. }
  assert (Hm : backends_of cfg !! "mqtt" =
               Some (backend_in_use (ini "mqtt") (cli "mqtt"))).
  { unfold backends_of. apply lookup_insert_eq. }
  split; [|split; [|split; [|split]]].
  - apply settings_backends.
  - unfold backends_of. rewrite !dom_insert_L, dom_empty_L. set_solver.
  - intros b Hb. set_unfold in Hb. destruct Hb as [-> | [-> | []]]; assumption.
  - intros Hi Hc. rewrite Hh, Hi, Hc. reflexivity.
  - intros Hi Hc. rewrite Hh, Hi, Hc. reflexivity.
Qed.

(** C10. In the settings returned by [load_global_cfg], the value stored
    for a backend is the ini value whenever the command-line value is falsy
    ([None] and the empty string are) or equal to the ini value; it is the
    command-line value exactly when that is truthy and differs. *)
Theorem backend_override_needs_truthy_and_different cfg w d w' b :
  not_cached cfg w ->
  cached cfg w = (Ok d, w') ->
  b ∈ ["http"; "mqtt"] ->
  let ini := ini_values cfg ("tavern-" +:+ b +:+ "-backend") in
  let cli := option_values cfg ("tavern_" +:+ b +:+ "_backend") in
  exists stored,
    py_path (VDict d) ["backends"; b] = Some stored
    /\ (truthy cli = false -> stored = ini)
    /\ (py_eq cli ini = true -> stored = ini)
    /\ (truthy cli = true -> py_eq cli ini = false -> stored = cli)
    /\ truthy VNone = false
    /\ truthy (VStr "") = false.
Proof.
  intros Hn H Hb ini cli.
  destruct (cached_miss_ok _ _ _ _ Hn H) as (w1 & Hw & _).
  destruct (wrapped_ok_inv _ _ _ _ Hw) as (p & doc & g & _ & _ & -> & _ & _).
  exists (backend_in_use ini cli).
  cbn [py_path py_getitem]. rewrite settings_backends. cbn [py_path py_getitem].
  split.
  - subst ini cli. unfold backends_of.
    set_unfold in Hb. destruct Hb as [-> | [-> | []]].
    + rewrite lookup_insert_ne by done. by rewrite lookup_insert_eq.
    + by rewrite lookup_insert_eq.
  - unfold backend_in_use, py_ne. repeat split.
    + intros ->. reflexivity.
    + intros ->. by rewrite andb_false_r.
    + intros -> ->. reflexivity.
Qed.

(** C6. The file loader is called once, with the ini paths followed by the
    command-line paths; a store without a value contributes no path. *)
Theorem loader_receives_ini_then_cli_paths cfg w a b :
  not_cached cfg w ->
  path_list (ini_values cfg "tavern-global-cfg") = Some a ->
  path_list (option_values cfg "tavern_global_cfg") = Some b ->
  loader_calls (snd (cached cfg w)) = (loader_calls w ++ [VList (a ++ b)])%list.
Proof.
  intros Hn Ha Hb.
  rewrite <- (wrapped_loader_calls cfg w _ (all_paths_of_lists _ _ _ Ha Hb)).
  rewrite (cached_miss _ _ Hn).
  destruct (wrapped cfg w) as [[r|e] w1]; reflexivity.
Qed.

(** C8. Every key of the loaded document other than ["variables"],
    ["strict"] and ["backends"] has in the returned settings the value (or
    the absence) it has in the loaded document. *)
Theorem load_global_cfg_frame cfg w p doc d w' k :
  not_cached cfg w ->
  all_paths_of cfg = Ok p ->
  load_global_config p = Ok doc ->
  cached cfg w = (Ok d, w') ->
  k ∉ ["variables"; "strict"; "backends"] ->
  d !! k = doc !! k.
Proof.
  intros Hn Hp Hl H Hk.
  destruct (cached_miss_ok _ _ _ _ Hn H) as (w1 & Hw & _).
  destruct (wrapped_ok_inv _ _ _ _ Hw) as (p' & doc' & g & Hp' & Hl' & -> & _ & Hg).
  rewrite Hp in Hp'. injection Hp' as <-. rewrite Hl in Hl'. injection Hl' as <-.
  rewrite !not_elem_of_cons in Hk. destruct Hk as (Hv & Hs & Hb & _).
  rewrite settings_other by assumption.
  destruct Hg as [[_ ->] | (v & f & _ & _ & ->)]; [reflexivity|].
  apply lookup_insert_ne. congruence.
Qed.

(** C5. When the loaded document has a ["variables"] entry, the formatter
    is called on it together with a context that holds every environment
    variable under [tavern.env_vars], and the returned settings hold the
    formatter's result under ["variables"].  When it has none, the
    formatter is not called, a record is logged at debug level, the
    function goes on to the [strict] check (the only place it can still
    raise) and the settings it returns have no ["variables"] entry. *)
Theorem variables_formatting cfg w p doc :
  not_cached cfg w ->
  all_paths_of cfg = Ok p ->
  load_global_config p = Ok doc ->
  let run := cached cfg w in
  (forall v, doc !! "variables" = Some v ->
     formatter_calls (snd run) = (formatter_calls w ++ [(v, box)])%list
     /\ (forall d, fst run = Ok d ->
          exists f, format_keys v box = Ok f /\ d !! "variables" = Some f))
  /\ (doc !! "variables" = None ->
      formatter_calls (snd run) = formatter_calls w
      /\ (exists later,
           log (snd run) =
           (log w ++ mkLog DEBUG "Nothing to format in global config files" [] :: later)%list)
      /\ fst run = (if strict_ok (strict_of cfg) then Ok (settings cfg doc)
                    else Raise (strict_exception (strict_of cfg)))
      /\ (forall d, fst run = Ok d -> d !! "variables" = None))
  /\ (forall name,
        py_path box ["tavern"; "env_vars"; name] = VStr <$> os_environ !! name).
Proof.
  intros Hn Hp Hl run. subst run.
  rewrite (cached_miss _ _ Hn).
  destruct (wrapped_run cfg w) as [qs ->]. rewrite Hp, Hl.
  split; [|split].
  - intros v ->.
    destruct (format_keys v box) as [f|e] eqn:Ef.
    + cbv zeta. destruct (strict_ok (strict_of cfg)); cbn.
      * split; [reflexivity|]. intros d [= <-]. exists f. split; [reflexivity|].
        rewrite settings_other by done. apply lookup_insert_eq.
      * split; [reflexivity|]. intros d [=].
    + cbn. split; [reflexivity|]. intros d [=].
  - intros Hv. rewrite Hv.
    destruct (strict_ok (strict_of cfg)); cbn.
    + rewrite app_nil_r. repeat split; eauto.
      intros d [= <-]. by rewrite settings_other.
    + rewrite app_nil_r. repeat split; eauto. intros d [=].
  - intros name. unfold tavern_box. cbn [py_path py_getitem].
    rewrite lookup_singleton_eq. cbn [py_path py_getitem].
    rewrite lookup_singleton_eq. cbn [py_path py_getitem].
    rewrite lookup_fmap. by destruct (os_environ !! name).
Qed.

(** C4, as far as the cache goes.  When a call returns normally, the next
    call with the same handle returns the same settings from the cache and
    neither queries the stores nor calls the loader or the formatter nor
    logs; the first of the two calls made exactly one load if the handle
    was not cached before it and none if it was.  A call that raises
    leaves the cache as it was, and the cache never grows beyond its 128
    entries. *)
Theorem load_global_cfg_cache cfg w :
  let first := cached cfg w in
  let second := cached cfg (snd first) in
  (forall d, fst first = Ok d ->
     fst second = Ok d
     /\ loader_calls (snd second) = loader_calls (snd first)
     /\ formatter_calls (snd second) = formatter_calls (snd first)
     /\ queries (snd second) = queries (snd first)
     /\ log (snd second) = log (snd first)
     /\ (not_cached cfg w ->
         exists paths, loader_calls (snd first) = (loader_calls w ++ [paths])%list)
     /\ (forall r, cache_find (config_id cfg) (lru w) = Some r ->
         d = r /\ loader_calls (snd first) = loader_calls w))
  /\ (forall e, fst first = Raise e -> lru (snd first) = lru w)
  /\ (List.length (lru w) <= maxsize -> List.length (lru (snd first)) <= maxsize)
  /\ maxsize = 128.
Proof.
  intros first second. subst second first.
  split; [|split; [|split; [|reflexivity]]].
  - intros d Hd.
    assert (Hfound : cache_find (config_id cfg) (lru (snd (cached cfg w))) = Some d).
    { destruct (cache_find (config_id cfg) (lru w)) as [r|] eqn:Ec.
      - rewrite (cached_hit _ _ _ Ec) in Hd |- *. injection Hd as ->.
        cbn. by rewrite Nat.eqb_refl.
      - rewrite (cached_miss _ _ Ec) in Hd |- *.
        destruct (wrapped cfg w) as [[r|e] w1]; [|discriminate].
        injection Hd as ->. cbn. by rewrite Nat.eqb_refl. }
    rewrite (cached_hit _ _ _ Hfound). cbn.
    repeat split.
    + intros Hn. rewrite (cached_miss _ _ Hn) in Hd |- *.
      destruct (wrapped_ok_inv cfg w d (snd (wrapped cfg w))) as (p & _ & _ & Hp & _).
      { destruct (wrapped cfg w) as [[r|e] w1]; [|discriminate].
        injection Hd as ->. reflexivity. }
      exists p. rewrite <- (wrapped_loader_calls cfg w p Hp).
      destruct (wrapped cfg w) as [[r|e] w1]; reflexivity.
    + rewrite (cached_hit _ _ _ H) in Hd. by injection Hd.
    + rewrite (cached_hit _ _ _ H). reflexivity.
  - intros e He.
    destruct (cache_find (config_id cfg) (lru w)) as [r|] eqn:Ec.
    + rewrite (cached_hit _ _ _ Ec) in He. discriminate.
    + rewrite (cached_miss _ _ Ec) in He |- *.
      pose proof (wrapped_lru cfg w) as Hl.
      destruct (wrapped cfg w) as [[r|e'] w1]; [discriminate|]. exact Hl.
  - intros Hlen.
    destruct (cache_find (config_id cfg) (lru w)) as [r|] eqn:Ec.
    + rewrite (cached_hit _ _ _ Ec). cbn.
      pose proof (cache_remove_shorter _ _ _ Ec). lia.
    + rewrite (cached_miss _ _ Ec).
      destruct (wrapped cfg w) as [[r|e'] w1] eqn:Ew.
      * unfold with_lru. cbn [snd lru]. rewrite length_take. lia.
      * pose proof (wrapped_lru cfg w) as Hl. rewrite Ew in Hl. cbn in Hl |- *.
        by rewrite Hl.
Qed.

(** ** Further properties of the loader

    The exact run of the wrapped function, lookups included. *)

Lemma get_option_generic_strict_exact cfg w :
  get_option_generic cfg "tavern-strict" (VList []) w =
  (Ok (strict_of cfg), with_queries w (queries w ++ strict_queries cfg)).
Proof.
  unfold strict_of, three_tier, strict_queries. py_unfold. cbn.
  destruct (ini_values cfg "tavern_strict"); cbn;
    unfold with_queries; cbn; rewrite <- ?app_assoc; try reflexivity;
    destruct (option_values cfg "tavern-strict"); cbn;
    rewrite <- ?app_assoc; reflexivity.
Qed.

Lemma backends_loop_exact cfg (g : gmap string PyVal) w :
  for_each ["http"; "mqtt"] (resolve_backend cfg) (<["backends" := VDict ∅]> g) w
  = (Ok (<["backends" := VDict (backends_of cfg)]> g),
     with_queries w (queries w ++ backend_queries)).
Proof.
  unfold for_each, resolve_backend, bind, getini, getoption, set_backend, ret.
  cbn -[insert lookup].
  rewrite lookup_insert_eq. cbn -[insert lookup].
  rewrite lookup_insert_eq. cbn -[insert lookup].
  rewrite !insert_insert_eq. unfold backends_of, with_queries, backend_queries.
  cbn -[insert lookup]. rewrite <- !app_assoc. reflexivity.
Qed.

Lemma finish_exact cfg (g : gmap string PyVal) w :
  (let* strict := get_option_generic cfg "tavern-strict" (VList []) in
   do check_strict strict then
   let global_cfg := <["strict" := strict]> g in
   let global_cfg := <["backends" := VDict ∅]> global_cfg in
   let* global_cfg := for_each ["http"; "mqtt"] (resolve_backend cfg) global_cfg in
   do logger_debug "Global config: %s" [VDict global_cfg] then
   ret global_cfg) w =
  if strict_ok (strict_of cfg) then
    (Ok (settings cfg g),
     extend w (strict_queries cfg ++ backend_queries) [] []
       [global_config_record (settings cfg g)])
  else
    (Raise (strict_exception (strict_of cfg)), extend w (strict_queries cfg) [] [] []).
Proof.
  unfold bind at 1. rewrite get_option_generic_strict_exact.
  set (w1 := with_queries w (queries w ++ strict_queries cfg)).
  assert (Hgo :
    (do ret tt then
     let global_cfg := <["strict" := strict_of cfg]> g in
     let global_cfg := <["backends" := VDict ∅]> global_cfg in
     let* global_cfg := for_each ["http"; "mqtt"] (resolve_backend cfg) global_cfg in
     do logger_debug "Global config: %s" [VDict global_cfg] then
     ret global_cfg) w1 =
    (Ok (settings cfg g),
     extend w (strict_queries cfg ++ backend_queries) [] []
       [global_config_record (settings cfg g)])).
  { unfold bind at 1. unfold ret at 1. cbv zeta.
    unfold bind at 1. rewrite backends_loop_exact. unfold bind, logger_debug, ret.
    subst w1. unfold extend, with_log, with_queries, settings, global_config_record.
    cbn -[insert]. rewrite <- app_assoc, !app_nil_r. reflexivity. }
  unfold check_strict, strict_ok.
  destruct (strict_of cfg) as [| | | |entries|] eqn:Es; try exact Hgo.
  destruct (any_invalid entries) eqn:Ei; cbn; [|exact Hgo].
  unfold bind, raise, extend, with_queries. subst w1. cbn.
  rewrite !app_nil_r. reflexivity.
Qed.

Lemma wrapped_exact cfg w :
  wrapped cfg w =
  match all_paths_of cfg with
  | Raise e => (Raise e, extend w path_queries [] [] [])
  | Ok p =>
      match load_global_config p with
      | Raise e => (Raise e, extend w path_queries [p] [] [])
      | Ok doc =>
          match doc !! "variables" with
          | None =>
              if strict_ok (strict_of cfg) then
                (Ok (settings cfg doc),
                 extend w (path_queries ++ strict_queries cfg ++ backend_queries) [p] []
                   [nothing_to_format; global_config_record (settings cfg doc)])
              else
                (Raise (strict_exception (strict_of cfg)),
                 extend w (path_queries ++ strict_queries cfg) [p] [] [nothing_to_format])
          | Some v =>
              match format_keys v box with
              | Raise e => (Raise e, extend w path_queries [p] [(v, box)] [])
              | Ok f =>
                  let g := <["variables" := f]> doc in
                  if strict_ok (strict_of cfg) then
                    (Ok (settings cfg g),
                     extend w (path_queries ++ strict_queries cfg ++ backend_queries)
                       [p] [(v, box)] [global_config_record (settings cfg g)])
                  else
                    (Raise (strict_exception (strict_of cfg)),
                     extend w (path_queries ++ strict_queries cfg) [p] [(v, box)] [])
              end
          end
      end
  end.
Proof.
  unfold load_global_cfg_wrapped.
  unfold bind at 1, getini at 1. unfold bind at 1, getoption at 1.
  unfold bind at 1, lift at 1. fold (all_paths_of cfg).
  destruct (all_paths_of cfg) as [p|e].
  2:{ unfold extend, with_queries, path_queries; cbn.
      rewrite !app_nil_r, <- app_assoc. reflexivity. }
  unfold bind at 1, call_load_global_config at 1.
  destruct (load_global_config p) as [doc|e].
  2:{ unfold extend, with_queries, with_loader_calls, path_queries; cbn.
      rewrite !app_nil_r, <- app_assoc. reflexivity. }
  unfold bind at 1, format_variables at 1.
  destruct (doc !! "variables") as [v|].
  - unfold bind at 1, call_format_keys at 1.
    destruct (format_keys v box) as [f|e].
    2:{ unfold extend, with_queries, with_loader_calls, with_formatter_calls, path_queries;
        cbn. rewrite !app_nil_r, <- app_assoc. reflexivity. }
    unfold ret at 1. rewrite finish_exact.
    destruct (strict_ok (strict_of cfg));
      unfold extend, with_queries, with_loader_calls, with_formatter_calls, path_queries;
      cbn; rewrite ?app_nil_r, <- ?app_assoc; reflexivity.
  - unfold bind at 1, logger_debug at 1. unfold ret at 1. rewrite finish_exact.
    destruct (strict_ok (strict_of cfg));
      unfold extend, with_queries, with_loader_calls, with_log, path_queries; cbn;
      rewrite ?app_nil_r, <- ?app_assoc; reflexivity.
Qed.

(** *** Failures of the collaborators and of [+] *)

(** X1. An exception of the file loader comes out of [load_global_cfg]
    unchanged; by then only the two path lookups and the loader call have
    happened: nothing is formatted, logged or cached. *)
Theorem loader_failure_propagates cfg w p e :
  not_cached cfg w ->
  all_paths_of cfg = Ok p ->
  load_global_config p = Raise e ->
  let run := cached cfg w in
  fst run = Raise e
  /\ queries (snd run)
     = (queries w ++ [QIni "tavern-global-cfg"; QOption "tavern_global_cfg"])%list
  /\ loader_calls (snd run) = (loader_calls w ++ [p])%list
  /\ formatter_calls (snd run) = formatter_calls w
  /\ log (snd run) = log w
  /\ lru (snd run) = lru w.
Proof.
  intros Hn Hp Hl run. subst run.
  rewrite (cached_miss _ _ Hn), wrapped_exact, Hp, Hl. cbn.
  rewrite !app_nil_r. repeat split; reflexivity.
Qed.

(** X2. An exception of the formatter comes out unchanged as well; the
    [strict] option and the backends are then never looked up, and nothing
    is logged or cached. *)
Theorem formatter_failure_propagates cfg w p doc v e :
  not_cached cfg w ->
  all_paths_of cfg = Ok p ->
  load_global_config p = Ok doc ->
  doc !! "variables" = Some v ->
  format_keys v box = Raise e ->
  let run := cached cfg w in
  fst run = Raise e
  /\ queries (snd run)
     = (queries w ++ [QIni "tavern-global-cfg"; QOption "tavern_global_cfg"])%list
  /\ loader_calls (snd run) = (loader_calls w ++ [p])%list
  /\ formatter_calls (snd run) = (formatter_calls w ++ [(v, box)])%list
  /\ log (snd run) = log w
  /\ lru (snd run) = lru w.
Proof.
  intros Hn Hp Hl Hv Hf run. subst run.
  rewrite (cached_miss _ _ Hn), wrapped_exact, Hp, Hl, Hv, Hf. cbn.
  rewrite !app_nil_r. repeat split; reflexivity.
Qed.

(** X3. When one store gives the paths as a non-empty plain string and the
    other gives a list or nothing, [ini_global_cfg_paths +
    cmdline_global_cfg_paths] adds a string and a list: [load_global_cfg]
    raises [TypeError] and the file loader is never called. *)
Theorem string_and_list_paths_raise_TypeError cfg w s :
  not_cached cfg w ->
  s ≠ "" ->
  (ini_values cfg "tavern-global-cfg" = VStr s
   /\ is_Some (path_list (option_values cfg "tavern_global_cfg")))
  \/ (is_Some (path_list (ini_values cfg "tavern-global-cfg"))
      /\ option_values cfg "tavern_global_cfg" = VStr s) ->
  let run := cached cfg w in
  fst run = Raise TypeError
  /\ loader_calls (snd run) = loader_calls w
  /\ lru (snd run) = lru w.
Proof.
  intros Hn Hs Hcase run. subst run.
  assert (Ht : truthy (VStr s) = true).
  { cbn. destruct (String.eqb s "") eqn:E; [|reflexivity].
    apply String.eqb_eq in E. contradiction. }
  assert (Hp : all_paths_of cfg = Raise TypeError).
  { unfold all_paths_of.
    destruct Hcase as [[Hi [a Ha]] | [[a Ha] Hc]].
    - rewrite Hi. unfold py_or. rewrite Ht.
      destruct (option_values cfg _) as [| | | |l|]; try discriminate;
        [reflexivity | destruct l; reflexivity].
    - rewrite Hc. unfold py_or. rewrite Ht.
      destruct (ini_values cfg _) as [| | | |l|]; try discriminate;
        [reflexivity | destruct l; reflexivity]. }
  rewrite (cached_miss _ _ Hn), wrapped_exact, Hp. cbn.
  rewrite !app_nil_r. repeat split; reflexivity.
Qed.

(** *** The [strict] value *)

(** X4. A resolved [strict] that is not a list (a single string, say) is
    not checked at all: [load_global_cfg] returns and stores it as it is. *)
Theorem non_list_strict_is_not_checked cfg w p doc strict :
  not_cached cfg w ->
  all_paths_of cfg = Ok p ->
  load_global_config p = Ok doc ->
  (forall v, doc !! "variables" = Some v -> exists f, format_keys v box = Ok f) ->
  fst (get_option_generic cfg "tavern-strict" (VList []) w) = Ok strict ->
  (forall entries, strict ≠ VList entries) ->
  exists d, fst (cached cfg w) = Ok d /\ d !! "strict" = Some strict.
Proof.
  intros Hn Hp Hl Hf Hs Hnl.
  rewrite strict_of_resolved in Hs. injection Hs as Hs.
  assert (Hok : strict_ok (strict_of cfg) = true).
  { rewrite Hs. destruct strict; try reflexivity. by destruct (Hnl l). }
  rewrite (cached_miss _ _ Hn), wrapped_exact, Hp, Hl.
  destruct (doc !! "variables") as [v|] eqn:Ev.
  - destruct (Hf v eq_refl) as [f ->]. cbv zeta. rewrite Hok. cbn [fst].
    eexists. split; [reflexivity|]. by rewrite settings_strict, Hs.
  - rewrite Hok. cbn [fst]. eexists. split; [reflexivity|].
    by rewrite settings_strict, Hs.
Qed.

(** X5. The returned settings have the keys of the loaded document and the
    two keys ["strict"] and ["backends"], nothing else; what the document
    itself had under ["strict"] is replaced by the resolved option. *)
Theorem settings_keys cfg w p doc d w' :
  not_cached cfg w ->
  all_paths_of cfg = Ok p ->
  load_global_config p = Ok doc ->
  cached cfg w = (Ok d, w') ->
  dom d = dom doc ∪ {[ "strict"; "backends" ]}
  /\ Ok <$> d !! "strict"
     = Some (fst (get_option_generic cfg "tavern-strict" (VList []) w)).
Proof.
  intros Hn Hp Hl H.
  destruct (cached_miss_ok _ _ _ _ Hn H) as (w1 & Hw & _).
  destruct (wrapped_ok_inv _ _ _ _ Hw) as (p' & doc' & g & Hp' & Hl' & -> & _ & Hg).
  rewrite Hp in Hp'. injection Hp' as <-. rewrite Hl in Hl'. injection Hl' as <-.
  split.
  - unfold settings. rewrite !dom_insert_L.
    assert (Hdom : dom g = dom doc).
    { destruct Hg as [[_ ->] | (v & f & Hv & _ & ->)]; [reflexivity|].
      rewrite dom_insert_L. apply set_eq. intros k.
      rewrite elem_of_union, elem_of_singleton. split; [|by right].
      intros [-> | Hk]; [|exact Hk]. apply elem_of_dom. eauto. }
    rewrite Hdom. apply set_eq. intros k.
    rewrite !elem_of_union, !elem_of_singleton. tauto.
  - rewrite settings_strict, strict_of_resolved. reflexivity.
Qed.

(** X6. An invalid [strict] is found only after the files have been read
    and the variables formatted: the loader and the formatter have been
    called, the backends are never looked up, the settings are neither
    logged nor cached. *)
Theorem invalid_strict_found_after_loading cfg w p doc entries :
  not_cached cfg w ->
  all_paths_of cfg = Ok p ->
  load_global_config p = Ok doc ->
  (forall v, doc !! "variables" = Some v -> exists f, format_keys v box = Ok f) ->
  fst (get_option_generic cfg "tavern-strict" (VList []) w) = Ok (VList entries) ->
  (exists i, i ∈ entries /\ i ∉ valid_keys) ->
  let run := cached cfg w in
  loader_calls (snd run) = (loader_calls w ++ [p])%list
  /\ formatter_calls (snd run)
     = (formatter_calls w ++
        match doc !! "variables" with Some v => [(v, box)] | None => [] end)%list
  /\ queries (snd run)
     = (queries w ++ [QIni "tavern-global-cfg"; QOption "tavern_global_cfg"]
                 ++ strict_queries cfg)%list
  /\ (forall r, r ∈ log (snd run) -> r ∈ log w \/ r = nothing_to_format)
  /\ lru (snd run) = lru w.
Proof.
  intros Hn Hp Hl Hf Hs Hbad run. subst run.
  rewrite strict_of_resolved in Hs. injection Hs as Hs.
  assert (Hok : strict_ok (strict_of cfg) = false).
  { rewrite Hs. cbn. apply any_invalid_true in Hbad. by rewrite Hbad. }
  rewrite (cached_miss _ _ Hn), wrapped_exact, Hp, Hl.
  destruct (doc !! "variables") as [v|] eqn:Ev.
  - destruct (Hf v eq_refl) as [f ->]. cbv zeta. rewrite Hok. cbn.
    rewrite !app_nil_r. repeat split; try reflexivity. intros r Hr. by left.
  - rewrite Hok. cbn. rewrite !app_nil_r. repeat split; try reflexivity.
    intros r Hr. rewrite elem_of_app, elem_of_cons, elem_of_nil in Hr.
    destruct Hr as [Hr | [Hr | []]]; [by left | by right].
Qed.

(** *** Lookups and logging *)

(** X7. A call that computes the settings and returns looks up, in this
    order, the two path options, the [strict] option as
    [get_option_generic] does, and the ini and command-line value of each
    backend; it makes no other lookup. *)
Theorem load_global_cfg_lookups cfg w d w' :
  not_cached cfg w ->
  cached cfg w = (Ok d, w') ->
  queries w' =
  (queries w
   ++ [QIni "tavern-global-cfg"; QOption "tavern_global_cfg"]
   ++ strict_queries cfg
   ++ [QIni "tavern-http-backend"; QOption "tavern_http_backend";
       QIni "tavern-mqtt-backend"; QOption "tavern_mqtt_backend"])%list.
Proof.
  intros Hn H. rewrite (cached_miss _ _ Hn), wrapped_exact in H.
  destruct (all_paths_of cfg) as [p|]; [|discriminate].
  destruct (load_global_config p) as [doc|]; [|discriminate].
  destruct (doc !! "variables") as [v|].
  - destruct (format_keys v box) as [f|]; [|discriminate]. cbv zeta in H.
    destruct (strict_ok (strict_of cfg)); [|discriminate].
    injection H as _ <-. reflexivity.
  - destruct (strict_ok (strict_of cfg)); [|discriminate].
    injection H as _ <-. reflexivity.
Qed.

(** X8. Whatever the outcome of a call, every lookup it makes is one of
    eight: four names in the ini store and four in the command-line
    store. *)
Theorem load_global_cfg_only_known_lookups cfg w :
  exists qs,
    queries (snd (load_global_cfg load_global_config format_keys os_environ cfg w))
    = (queries w ++ qs)%list
    /\ forall q, q ∈ qs ->
         q ∈ [QIni "tavern-global-cfg"; QIni "tavern_strict";
              QIni "tavern-http-backend"; QIni "tavern-mqtt-backend";
              QOption "tavern_global_cfg"; QOption "tavern-strict";
              QOption "tavern_http_backend"; QOption "tavern_mqtt_backend"].
Proof.
  assert (Hsq : forall q, q ∈ strict_queries cfg ->
                  q = QIni "tavern_strict" \/ q = QOption "tavern-strict").
  { intros q. unfold strict_queries.
    destruct (ini_values cfg "tavern_strict");
      try destruct (option_values cfg "tavern-strict");
      rewrite ?elem_of_cons, elem_of_nil; tauto. }
  assert (Hall : forall q, q ∈ (path_queries ++ strict_queries cfg ++ backend_queries)%list ->
         q ∈ [QIni "tavern-global-cfg"; QIni "tavern_strict";
              QIni "tavern-http-backend"; QIni "tavern-mqtt-backend";
              QOption "tavern_global_cfg"; QOption "tavern-strict";
              QOption "tavern_http_backend"; QOption "tavern_mqtt_backend"]).
  { intros q. rewrite !elem_of_app. unfold path_queries, backend_queries.
    intros [Hq | [Hq | Hq]].
    - rewrite !elem_of_cons, elem_of_nil in Hq. rewrite !elem_of_cons. tauto.
    - apply Hsq in Hq. rewrite !elem_of_cons. tauto.
    - rewrite !elem_of_cons, elem_of_nil in Hq. rewrite !elem_of_cons. tauto. }
  assert (Hpre : forall q, q ∈ (path_queries ++ strict_queries cfg)%list ->
                   q ∈ (path_queries ++ strict_queries cfg ++ backend_queries)%list).
  { intros q. rewrite !elem_of_app. tauto. }
  assert (Hpath : forall q, q ∈ path_queries ->
                   q ∈ (path_queries ++ strict_queries cfg ++ backend_queries)%list).
  { intros q. rewrite !elem_of_app. tauto. }
  destruct (cache_find (config_id cfg) (lru w)) as [r|] eqn:Ec.
  { exists []. rewrite (cached_hit _ _ _ Ec). cbn. rewrite app_nil_r.
    split; [reflexivity|]. intros q Hq. by apply elem_of_nil in Hq. }
  rewrite (cached_miss _ _ Ec), wrapped_exact.
  destruct (all_paths_of cfg) as [p|]; [|exists path_queries; cbn; auto].
  destruct (load_global_config p) as [doc|]; [|exists path_queries; cbn; auto].
  destruct (doc !! "variables") as [v|].
  - destruct (format_keys v box) as [f|]; [|exists path_queries; cbn; auto].
    cbv zeta. destruct (strict_ok (strict_of cfg)).
    + exists (path_queries ++ strict_queries cfg ++ backend_queries)%list. cbn. auto.
    + exists (path_queries ++ strict_queries cfg)%list. cbn. auto.
  - destruct (strict_ok (strict_of cfg)).
    + exists (path_queries ++ strict_queries cfg ++ backend_queries)%list. cbn. auto.
    + exists (path_queries ++ strict_queries cfg)%list. cbn. auto.
Qed.

(** X9. A call that computes the settings and returns has sent them to the
    logger: the last record logged is the debug record ["Global config: %s"]
    with the returned settings as its argument. *)
Theorem returned_settings_are_logged cfg w d w' :
  not_cached cfg w ->
  cached cfg w = (Ok d, w') ->
  exists earlier,
    log w' = (earlier ++ [mkLog DEBUG "Global config: %s" [VDict d]])%list.
Proof.
  intros Hn H. rewrite (cached_miss _ _ Hn), wrapped_exact in H.
  destruct (all_paths_of cfg) as [p|]; [|discriminate].
  destruct (load_global_config p) as [doc|]; [|discriminate].
  destruct (doc !! "variables") as [v|].
  - destruct (format_keys v box) as [f|]; [|discriminate]. cbv zeta in H.
    destruct (strict_ok (strict_of cfg)); [|discriminate].
    injection H as <- <-. exists (log w). reflexivity.
  - destruct (strict_ok (strict_of cfg)); [|discriminate].
    injection H as <- <-. exists (log w ++ [nothing_to_format])%list.
    cbn. rewrite <- app_assoc. reflexivity.
Qed.

(** *** The cache over several handles *)







(** *** Backends and registered choices *)

Lemma py_eq_truthy a b : py_eq a b = true -> truthy a = truthy b.
Proof.
  destruct a as [|x|n|s|xs|d1], b as [|y|m|t|ys|d2]; cbn; try discriminate;
    try reflexivity.
  - intros H. by apply Bool.eqb_prop in H.
  - intros H. apply Z.eqb_eq in H. subst m. by destruct x.
  - intros H. apply Z.eqb_eq in H. subst n. by destruct y.
  - intros H. apply Z.eqb_eq in H. by subst m.
  - intros H. apply String.eqb_eq in H. by subst t.
  - destruct xs, ys; try discriminate; reflexivity.
  - intros H. apply andb_true_iff in H. destruct H as [H _].
    apply Nat.eqb_eq in H. by rewrite H.
Qed.

(** X11. When the ini store or the command line names a backend (gives a
    truthy value), the backend stored in the returned settings is truthy
    too: a falsy value in one store never hides the name in the other. *)
Theorem backend_is_set_when_a_store_names_one cfg w d w' b :
  not_cached cfg w ->
  cached cfg w = (Ok d, w') ->
  b ∈ ["http"; "mqtt"] ->
  truthy (ini_values cfg ("tavern-" +:+ b +:+ "-backend")) = true
  \/ truthy (option_values cfg ("tavern_" +:+ b +:+ "_backend")) = true ->
  exists stored,
    py_path (VDict d) ["backends"; b] = Some stored /\ truthy stored = true.
Proof.
  intros Hn H Hb Hnamed.
  destruct (cached_miss_ok _ _ _ _ Hn H) as (w1 & Hw & _).
  destruct (wrapped_ok_inv _ _ _ _ Hw) as (p & doc & g & _ & _ & -> & _ & _).
  set (ini := ini_values cfg ("tavern-" +:+ b +:+ "-backend")) in *.
  set (cli := option_values cfg ("tavern_" +:+ b +:+ "_backend")) in *.
  exists (backend_in_use ini cli).
  cbn [py_path py_getitem]. rewrite settings_backends. cbn [py_path py_getitem].
  split.
  - subst ini cli. unfold backends_of.
    rewrite !elem_of_cons, elem_of_nil in Hb. destruct Hb as [-> | [-> | []]].
    + rewrite lookup_insert_ne by done. by rewrite lookup_insert_eq.
    + by rewrite lookup_insert_eq.
  - unfold backend_in_use, py_ne.
    destruct (truthy cli) eqn:Tc; cbn.
    + destruct (py_eq cli ini) eqn:E; cbn; [|exact Tc].
      apply py_eq_truthy in E. congruence.
    + destruct Hnamed as [Hi | Hc]; [exact Hi | discriminate].
Qed.

(** X12. The values registered as [choices] of [--tavern-strict] are the
    values the [strict] check of [load_global_cfg] accepts: a list passes
    the check exactly when all its entries are registered choices. *)
Theorem registered_strict_choices_pass_the_check (with_defaults : bool) :
  exists choices,
    (opt_kwargs <$> registered "--tavern-strict" (add_parser_options with_defaults))
      ≫= kwarg "choices" = Some (VList choices)
    /\ forall entries,
         any_invalid entries = false <-> (forall i, i ∈ entries -> i ∈ choices).
Proof using.
  exists valid_keys. split; [by destruct with_defaults|].
  intros entries. split.
  - intros Hok i Hi. destruct (py_in i valid_keys) eqn:E.
    + by apply py_in_valid_keys.
    + assert (Hbad : any_invalid entries = true).
      { apply any_invalid_true. exists i. split; [exact Hi|].
        intros Hv. apply py_in_valid_keys in Hv. congruence. }
      congruence.
  - intros Hall. destruct (any_invalid entries) eqn:E; [|reflexivity].
    apply any_invalid_true in E. destruct E as (i & Hi & Hni).
    destruct Hni. by apply Hall.
Qed.

(** X13. Registration and resolution together.  When the command-line
    store holds for a backend the default that [add_parser_options]
    registers, the stored backend is that default if defaults are on (the
    ini value is then without effect) and the ini value if they are off. *)
Theorem registered_default_hides_ini_backend cfg w d w' b (with_defaults : bool) :
  not_cached cfg w ->
  cached cfg w = (Ok d, w') ->
  b ∈ ["http"; "mqtt"] ->
  (opt_kwargs <$> registered ("--tavern-" +:+ b +:+ "-backend")
                    (add_parser_options with_defaults)) ≫= kwarg "default"
  = Some (option_values cfg ("tavern_" +:+ b +:+ "_backend")) ->
  py_path (VDict d) ["backends"; b] =
  Some (if with_defaults
        then option_values cfg ("tavern_" +:+ b +:+ "_backend")
        else ini_values cfg ("tavern-" +:+ b +:+ "-backend")).
Proof.
  intros Hn H Hb Hdef.
  destruct (cached_miss_ok _ _ _ _ Hn H) as (w1 & Hw & _).
  destruct (wrapped_ok_inv _ _ _ _ Hw) as (p & doc & g & _ & _ & -> & _ & _).
  cbn [py_path py_getitem]. rewrite settings_backends. cbn [py_path py_getitem].
  assert (Hcli : forall s v, s ≠ "" -> backend_in_use v (VStr s) = VStr s).
  { intros s v Hs. unfold backend_in_use, py_ne.
    assert (Ht : truthy (VStr s) = true).
    { cbn. destruct (String.eqb s "") eqn:E; [|reflexivity].
      apply String.eqb_eq in E. contradiction. }
    rewrite Ht. destruct (py_eq (VStr s) v) eqn:E; [|reflexivity].
    apply py_eq_str in E. by subst v. }
  unfold backends_of.
  rewrite !elem_of_cons, elem_of_nil in Hb. destruct Hb as [-> | [-> | []]].
  - rewrite lookup_insert_ne by done. rewrite lookup_insert_eq.
    destruct with_defaults; cbn in Hdef; injection Hdef as Hdef.
    + change ("tavern_" +:+ "http" +:+ "_backend") with "tavern_http_backend" in Hdef |- *.
      rewrite <- Hdef. by rewrite Hcli.
    + change ("tavern_" +:+ "http" +:+ "_backend") with "tavern_http_backend" in Hdef.
      change ("tavern-" +:+ "http" +:+ "-backend") with "tavern-http-backend".
      by rewrite <- Hdef.
  - rewrite lookup_insert_eq.
    destruct with_defaults; cbn in Hdef; injection Hdef as Hdef.
    + change ("tavern_" +:+ "mqtt" +:+ "_backend") with "tavern_mqtt_backend" in Hdef |- *.
      rewrite <- Hdef. by rewrite Hcli.
    + change ("tavern_" +:+ "mqtt" +:+ "_backend") with "tavern_mqtt_backend" in Hdef.
      change ("tavern-" +:+ "mqtt" +:+ "-backend") with "tavern-mqtt-backend".
      by rewrite <- Hdef.
Qed.

(** *** The ini name of a flag *)

Lemma str_replace_removes old new s i :
  new ≠ old -> String.get i (str_replace old new s) ≠ Some old.
Proof.
  intros Hne. rewrite str_replace_get.
  destruct (String.get i s) as [c|]; cbn; [|discriminate].
  destruct (Ascii.eqb c old) eqn:E.
  - congruence.
  - intros [= ->]. by rewrite Ascii.eqb_refl in E.
Qed.

Lemma str_replace_absent old new s :
  (forall i, String.get i s ≠ Some old) -> str_replace old new s = s.
Proof.
  induction s as [|c s IH]; intros H; cbn; [reflexivity|].
  destruct (Ascii.eqb c old) eqn:E.
  - apply Ascii.eqb_eq in E. subst c. by destruct (H 0).
  - f_equal. apply IH. intros i. apply (H (S i)).
Qed.

(** X14. [get_option_generic] never looks the ini store up under a name
    that contains ["-"]; and for a flag without ["-"] it uses one and the
    same name, the flag itself, in both stores. *)
Theorem get_option_generic_ini_name cfg flag default w :
  exists qs,
    queries (snd (get_option_generic cfg flag default w)) = (queries w ++ qs)%list
    /\ (forall name i, QIni name ∈ qs -> String.get i name ≠ Some "-"%char)
    /\ ((forall i, String.get i flag ≠ Some "-"%char) ->
        forall q, q ∈ qs -> q = QIni flag \/ q = QOption flag).
Proof using.
  clear load_global_config format_keys os_environ.
  set (ini_key := str_replace "-" "_" flag).
  assert (Hq : exists qs,
    queries (snd (get_option_generic cfg flag default w)) = (queries w ++ qs)%list
    /\ forall q, q ∈ qs -> q = QIni ini_key \/ q = QOption flag).
  { unfold get_option_generic, bind, getini, getoption, ret. cbn. fold ini_key.
    destruct (is_not_None (ini_values cfg ini_key)); cbn.
    - exists [QIni ini_key; QIni ini_key]. rewrite <- app_assoc.
      split; [reflexivity|]. intros q. rewrite !elem_of_cons, elem_of_nil. tauto.
    - destruct (is_not_None (option_values cfg flag)); cbn.
      + exists [QIni ini_key; QOption flag; QOption flag]. rewrite <- !app_assoc.
        split; [reflexivity|]. intros q. rewrite !elem_of_cons, elem_of_nil. tauto.
      + exists [QIni ini_key; QOption flag]. rewrite <- !app_assoc.
        split; [reflexivity|]. intros q. rewrite !elem_of_cons, elem_of_nil. tauto. }
  destruct Hq as (qs & Hqs & Hall). exists qs. split; [exact Hqs|]. split.
  - intros name i Hin. destruct (Hall _ Hin) as [[= ->] | [=]].
    apply str_replace_removes. discriminate.
  - intros Hfree q Hin. destruct (Hall _ Hin) as [-> | ->]; [left | by right].
    subst ini_key. by rewrite (str_replace_absent _ _ _ Hfree).
Qed.

End Properties.

(** ** The statements on the concrete scenario *)

Lemma demo_full_run :
  demo_load_global_cfg cfg_full initial_world = (Ok full_settings, demo_world cfg_full).
Proof. vm_compute. reflexivity. Qed.

Lemma demo_ini_only_run :
  demo_load_global_cfg cfg_ini_only initial_world
  = (Ok ini_only_settings, demo_world cfg_ini_only).
Proof. vm_compute. reflexivity. Qed.

Lemma demo_empty_cli_backend_run :
  demo_load_global_cfg cfg_empty_cli_backend initial_world
  = (Ok ini_only_settings, demo_world cfg_empty_cli_backend).
Proof. vm_compute. reflexivity. Qed.

(** An explicit empty list or [False] in the ini store is used, although
    the command line has a value; with neither store set the default comes
    back. *)
Example get_option_generic_falsy_values :
  fst (get_option_generic
         (mkConfig 0 (store {[ "some_flag" := VList [] ]})
                     (store {[ "some-flag" := VList [VStr "cli"] ]}))
         "some-flag" (VStr "default") initial_world) = Ok (VList [])
  /\ fst (get_option_generic
            (mkConfig 0 (store ∅) (store {[ "some-flag" := VBool false ]}))
            "some-flag" (VStr "default") initial_world) = Ok (VBool false)
  /\ fst (get_option_generic (cfg_numbered 0) "some-flag" (VBool false) initial_world)
     = Ok (VBool false).
Proof. repeat split; vm_compute; reflexivity. Qed.

Lemma strict_validation_witness :
  demo_result cfg_bad_strict =
    Raise (InvalidConfigurationException
             "Invalid values for 'strict' given - expected one of {}, got {}"
             [VList [VStr "body"; VStr "headers"; VStr "redirect_query_params"];
              VList [VStr "body"; VStr "bogus"]])
  /\ exists d, demo_result cfg_full = Ok d
       /\ d !! "strict" = Some (VList [VStr "body"; VStr "redirect_query_params"]).
Proof.
  split.
  - apply (proj1 (strict_validation demo_loader demo_formatter demo_environ
                    cfg_bad_strict initial_world (VList []) ∅
                    [VStr "body"; VStr "bogus"]
                    eq_refl eq_refl eq_refl
                    (fun v H => ex_intro _ _ eq_refl) eq_refl)).
    exists (VStr "bogus"). split.
    + rewrite !elem_of_cons. right. left. reflexivity.
    + rewrite !not_elem_of_cons. repeat split; try discriminate. apply not_elem_of_nil.
  - apply (proj2 (strict_validation demo_loader demo_formatter demo_environ
                    cfg_full initial_world
                    (VList [VStr "common.yaml"; VStr "local.yaml"]) demo_document
                    [VStr "body"; VStr "redirect_query_params"]
                    eq_refl eq_refl eq_refl
                    (fun v H => ex_intro _ _ eq_refl) eq_refl)).
    intros i Hi. rewrite !elem_of_cons in Hi |- *.
    destruct Hi as [-> | [-> | Hi]]; [by left | by right; right; left |].
    by apply elem_of_nil in Hi.
Defined.

Lemma backends_resolution_witness :
  exists bk : gmap string PyVal,
    full_settings !! "backends" = Some (VDict bk)
    /\ bk !! "http" = Some (VStr "custom")
    /\ bk !! "mqtt" = Some (VStr "paho-mqtt").
Proof.
  destruct (backends_resolution demo_loader demo_formatter demo_environ
              cfg_full initial_world full_settings (demo_world cfg_full)
              eq_refl demo_full_run)
    as (bk & Hbk & _ & Hall & _ & Hcustom).
  exists bk. split; [exact Hbk|]. split.
  - apply Hcustom; reflexivity.
  - rewrite (Hall "mqtt") by (rewrite !elem_of_cons; right; left; reflexivity).
    reflexivity.
Defined.

Lemma backend_override_needs_truthy_and_different_witness :
  py_path (VDict ini_only_settings) ["backends"; "http"] = Some (VStr "requests").
Proof.
  destruct (backend_override_needs_truthy_and_different
              demo_loader demo_formatter demo_environ
              cfg_empty_cli_backend initial_world ini_only_settings
              (demo_world cfg_empty_cli_backend) "http"
              eq_refl demo_empty_cli_backend_run)
    as (stored & Hstored & Hfalsy & _).
  - rewrite !elem_of_cons. left. reflexivity.
  - rewrite Hstored. f_equal. apply Hfalsy. reflexivity.
Defined.

Lemma loader_receives_ini_then_cli_paths_witness :
  loader_calls (demo_world cfg_full) = [VList [VStr "common.yaml"; VStr "local.yaml"]]
  /\ loader_calls (demo_world cfg_ini_only) = [VList []].
Proof.
  split.
  - apply (loader_receives_ini_then_cli_paths demo_loader demo_formatter demo_environ
             cfg_full initial_world [VStr "common.yaml"] [VStr "local.yaml"]);
      reflexivity.
  - apply (loader_receives_ini_then_cli_paths demo_loader demo_formatter demo_environ
             cfg_ini_only initial_world [] []); reflexivity.
Defined.

Lemma load_global_cfg_frame_witness :
  full_settings !! "stages" = demo_document !! "stages"
  /\ full_settings !! "stages" = Some (VList [VStr "login"]).
Proof.
  split; [|reflexivity].
  apply (load_global_cfg_frame demo_loader demo_formatter demo_environ
           cfg_full initial_world
           (VList [VStr "common.yaml"; VStr "local.yaml"]) demo_document
           full_settings (demo_world cfg_full) "stages"
           eq_refl eq_refl eq_refl demo_full_run).
  rewrite !not_elem_of_cons. repeat split; try discriminate. apply not_elem_of_nil.
Defined.

Lemma variables_formatting_witness :
  formatter_calls (demo_world cfg_full)
    = [(VDict {[ "host" := VStr "{tavern.env_vars.HOST}" ]},
        tavern_box demo_environ)]
  /\ formatter_calls (demo_world cfg_ini_only) = []
  /\ demo_result cfg_ini_only = Ok ini_only_settings
  /\ py_path (tavern_box demo_environ) ["tavern"; "env_vars"; "HOST"]
     = Some (VStr "example.org").
Proof.
  destruct (variables_formatting demo_loader demo_formatter demo_environ
              cfg_full initial_world
              (VList [VStr "common.yaml"; VStr "local.yaml"]) demo_document
              eq_refl eq_refl eq_refl) as (Hsome & _ & Henv).
  destruct (variables_formatting demo_loader demo_formatter demo_environ
              cfg_ini_only initial_world (VList []) ∅
              eq_refl eq_refl eq_refl) as (_ & Hnone & _).
  destruct (Hsome _ eq_refl) as (Hcalls & _).
  destruct (Hnone eq_refl) as (Hno & _ & Hres & _).
  split; [exact Hcalls|]. split; [exact Hno|]. split.
  - unfold demo_result, demo_load_global_cfg. rewrite Hres. vm_compute. reflexivity.
  - rewrite Henv. reflexivity.
Defined.

Lemma load_global_cfg_cache_witness :
  let second := demo_load_global_cfg cfg_full (demo_world cfg_full) in
  fst second = Ok full_settings
  /\ loader_calls (snd second) = [VList [VStr "common.yaml"; VStr "local.yaml"]]
  /\ lru (demo_world cfg_bad_strict) = [].
Proof.
  destruct (load_global_cfg_cache demo_loader demo_formatter demo_environ
              cfg_full initial_world) as (Hok & _).
  destruct (load_global_cfg_cache demo_loader demo_formatter demo_environ
              cfg_bad_strict initial_world) as (_ & Hraise & _).
  destruct (Hok full_settings) as (Hsame & Hloads & _).
  { fold demo_load_global_cfg. rewrite demo_full_run. reflexivity. }
  cbv zeta. split; [exact Hsame|]. split.
  - unfold demo_load_global_cfg, demo_world, demo_load_global_cfg.
    rewrite Hloads. vm_compute. reflexivity.
  - unfold demo_world, demo_load_global_cfg. erewrite Hraise; reflexivity.
Defined.

(** ** Where the specification and the code part *)

(** Against C2 as stated: a [strict] list made of the hyphenated spelling
    ["redirect-query-params"] alone is refused, and a list with the
    underscore spelling, which is outside the stated set, is accepted. *)
Lemma strict_hyphen_spelling_refused :
  let stated := [VStr "body"; VStr "headers"; VStr "redirect-query-params"] in
  (forall i, i ∈ [VStr "redirect-query-params"] -> i ∈ stated)
  /\ fst (get_option_generic cfg_hyphen_strict "tavern-strict" (VList []) initial_world)
     = Ok (VList [VStr "redirect-query-params"])
  /\ demo_result cfg_hyphen_strict =
     Raise (InvalidConfigurationException
              "Invalid values for 'strict' given - expected one of {}, got {}"
              [VList [VStr "body"; VStr "headers"; VStr "redirect_query_params"];
               VList [VStr "redirect-query-params"]])
  /\ (VStr "redirect_query_params" ∉ stated)
  /\ demo_result cfg_full = Ok full_settings
  /\ full_settings !! "strict" = Some (VList [VStr "body"; VStr "redirect_query_params"]).
Proof.
  cbv zeta. split; [|split; [|split; [|split; [|split]]]].
  - intros i Hi. rewrite !elem_of_cons in Hi |- *.
    destruct Hi as [-> | Hi]; [by right; right; left | by apply elem_of_nil in Hi].
  - vm_compute. reflexivity.
  - vm_compute. reflexivity.
  - rewrite !not_elem_of_cons. repeat split; try discriminate. apply not_elem_of_nil.
  - unfold demo_result. rewrite demo_full_run. reflexivity.
  - reflexivity.
Qed.

(** Against C3 as stated: an empty string given on the command line is a
    value of the command-line store ([getoption] does not answer [None]) and
    differs from the ini value, yet the ini value stays in use. *)
Lemma empty_command_line_backend_ignored :
  option_values cfg_empty_cli_backend "tavern_http_backend" = VStr ""
  /\ is_not_None (option_values cfg_empty_cli_backend "tavern_http_backend") = true
  /\ py_ne (option_values cfg_empty_cli_backend "tavern_http_backend")
           (ini_values cfg_empty_cli_backend "tavern-http-backend") = true
  /\ demo_result cfg_empty_cli_backend = Ok ini_only_settings
  /\ py_path (VDict ini_only_settings) ["backends"; "http"] = Some (VStr "requests").
Proof.
  split; [reflexivity|]. split; [reflexivity|]. split; [reflexivity|].
  split; [|reflexivity].
  unfold demo_result. rewrite demo_empty_cli_backend_run. reflexivity.
Qed.

(** Against C4 as stated: a handle whose call raises is loaded again by the
    next call, and a handle whose entry has been pushed out of the cache by
    128 other handles is computed a second time. *)
Lemma load_global_cfg_recomputed :
  let w1 := demo_world (cfg_numbered 0) in
  let w2 := demo_calls (cfg_numbered <$> seq 1 128) w1 in
  let w3 := snd (demo_load_global_cfg (cfg_numbered 0) w2) in
  loader_calls (demo_calls [cfg_bad_strict; cfg_bad_strict] initial_world)
    = [VList []; VList []]
  /\ List.length (loader_calls w1) = 1
  /\ is_Some (cache_find 0 (lru w1))
  /\ cache_find 0 (lru w2) = None
  /\ List.length (loader_calls w2) = 129
  /\ List.length (loader_calls w3) = 130.
Proof.
  cbv zeta. split; [vm_compute; reflexivity|].
  split; [vm_compute; reflexivity|].
  split; [vm_compute; eauto|].
  repeat split; vm_compute; reflexivity.
Qed.

(** ** The further properties on the concrete scenario *)

Lemma demo_cli_defaults_run :
  demo_load_global_cfg cfg_cli_defaults initial_world
  = (Ok cli_defaults_settings, demo_world cfg_cli_defaults).
Proof. vm_compute. reflexivity. Qed.

Lemma loader_failure_propagates_witness :
  demo_result cfg_string_paths
    = Raise (CollaboratorError (VStr "common.yamllocal.yaml"))
  /\ formatter_calls (demo_world cfg_string_paths) = []
  /\ lru (demo_world cfg_string_paths) = [].
Proof.
  destruct (loader_failure_propagates demo_loader demo_formatter demo_environ
              cfg_string_paths initial_world (VStr "common.yamllocal.yaml")
              (CollaboratorError (VStr "common.yamllocal.yaml"))
              eq_refl eq_refl eq_refl) as (Hr & _ & _ & Hf & _ & Hl).
  split; [exact Hr|]. split; [exact Hf | exact Hl].
Defined.

Lemma formatter_failure_propagates_witness :
  let run := load_global_cfg demo_loader failing_formatter demo_environ
               cfg_full initial_world in
  fst run = Raise (CollaboratorError (VDict {[ "host" := VStr "{tavern.env_vars.HOST}" ]}))
  /\ queries (snd run) = [QIni "tavern-global-cfg"; QOption "tavern_global_cfg"]
  /\ lru (snd run) = [].
Proof.
  destruct (formatter_failure_propagates demo_loader failing_formatter demo_environ
              cfg_full initial_world
              (VList [VStr "common.yaml"; VStr "local.yaml"]) demo_document
              (VDict {[ "host" := VStr "{tavern.env_vars.HOST}" ]})
              (CollaboratorError (VDict {[ "host" := VStr "{tavern.env_vars.HOST}" ]}))
              eq_refl eq_refl eq_refl eq_refl eq_refl) as (Hr & Hq & _ & _ & _ & Hl).
  cbv zeta. split; [exact Hr|]. split; [exact Hq | exact Hl].
Defined.

Lemma string_and_list_paths_raise_TypeError_witness :
  demo_result cfg_string_path = Raise TypeError
  /\ loader_calls (demo_world cfg_string_path) = [].
Proof.
  destruct (string_and_list_paths_raise_TypeError demo_loader demo_formatter demo_environ
              cfg_string_path initial_world "common.yaml" eq_refl)
    as (Hr & Hl & _).
  - discriminate.
  - left. split; [reflexivity|]. exists []. reflexivity.
  - split; [exact Hr | exact Hl].
Defined.

Lemma non_list_strict_is_not_checked_witness :
  exists d, demo_result cfg_string_strict = Ok d /\ d !! "strict" = Some (VStr "bogus").
Proof.
  apply (non_list_strict_is_not_checked demo_loader demo_formatter demo_environ
           cfg_string_strict initial_world (VList []) ∅ (VStr "bogus")
           eq_refl eq_refl eq_refl).
  - intros v Hv. rewrite lookup_empty in Hv. discriminate.
  - reflexivity.
  - discriminate.
Defined.

Lemma settings_keys_witness :
  dom full_settings = dom demo_document ∪ {[ "strict"; "backends" ]}
  /\ full_settings !! "strict" = Some (VList [VStr "body"; VStr "redirect_query_params"]).
Proof.
  destruct (settings_keys demo_loader demo_formatter demo_environ
              cfg_full initial_world
              (VList [VStr "common.yaml"; VStr "local.yaml"]) demo_document
              full_settings (demo_world cfg_full)
              eq_refl eq_refl eq_refl demo_full_run) as (Hdom & _).
  split; [exact Hdom | reflexivity].
Defined.

Lemma invalid_strict_found_after_loading_witness :
  loader_calls (demo_world cfg_paths_bad_strict) = [VList [VStr "common.yaml"]]
  /\ formatter_calls (demo_world cfg_paths_bad_strict)
     = [(VDict {[ "host" := VStr "{tavern.env_vars.HOST}" ]}, tavern_box demo_environ)]
  /\ lru (demo_world cfg_paths_bad_strict) = [].
Proof.
  destruct (invalid_strict_found_after_loading demo_loader demo_formatter demo_environ
              cfg_paths_bad_strict initial_world
              (VList [VStr "common.yaml"]) demo_document [VStr "bogus"]
              eq_refl eq_refl eq_refl (fun v H => ex_intro _ _ eq_refl) eq_refl)
    as (Hl & Hf & _ & _ & Hc).
  - exists (VStr "bogus"). split.
    + rewrite elem_of_cons. by left.
    + unfold valid_keys. rewrite !not_elem_of_cons.
      repeat split; try discriminate. apply not_elem_of_nil.
  - split; [exact Hl|]. split; [exact Hf | exact Hc].
Defined.

Lemma load_global_cfg_lookups_witness :
  queries (demo_world cfg_full) =
  [QIni "tavern-global-cfg"; QOption "tavern_global_cfg";
   QIni "tavern_strict"; QIni "tavern_strict";
   QIni "tavern-http-backend"; QOption "tavern_http_backend";
   QIni "tavern-mqtt-backend"; QOption "tavern_mqtt_backend"].
Proof.
  apply (load_global_cfg_lookups demo_loader demo_formatter demo_environ
           cfg_full initial_world full_settings (demo_world cfg_full)
           eq_refl demo_full_run).
Defined.

Lemma returned_settings_are_logged_witness :
  exists earlier,
    log (demo_world cfg_full)
    = (earlier ++ [mkLog DEBUG "Global config: %s" [VDict full_settings]])%list.
Proof.
  apply (returned_settings_are_logged demo_loader demo_formatter demo_environ
           cfg_full initial_world full_settings (demo_world cfg_full)
           eq_refl demo_full_run).
Defined.


Lemma backend_is_set_when_a_store_names_one_witness :
  exists stored,
    py_path (VDict ini_only_settings) ["backends"; "http"] = Some stored
    /\ truthy stored = true.
Proof.
  apply (backend_is_set_when_a_store_names_one demo_loader demo_formatter demo_environ
           cfg_empty_cli_backend initial_world ini_only_settings
           (demo_world cfg_empty_cli_backend) "http"
           eq_refl demo_empty_cli_backend_run).
  - rewrite elem_of_cons. by left.
  - left. reflexivity.
Defined.

Lemma registered_default_hides_ini_backend_witness :
  py_path (VDict cli_defaults_settings) ["backends"; "http"] = Some (VStr "requests")
  /\ py_path (VDict ini_only_settings) ["backends"; "http"] = Some (VStr "requests").
Proof.
  split.
  - apply (registered_default_hides_ini_backend demo_loader demo_formatter demo_environ
             cfg_cli_defaults initial_world cli_defaults_settings
             (demo_world cfg_cli_defaults) "http" true
             eq_refl demo_cli_defaults_run).
    + rewrite elem_of_cons. by left.
    + reflexivity.
  - apply (registered_default_hides_ini_backend demo_loader demo_formatter demo_environ
             cfg_ini_only initial_world ini_only_settings
             (demo_world cfg_ini_only) "http" false
             eq_refl demo_ini_only_run).
    + rewrite elem_of_cons. by left.
    + reflexivity.
Defined.

Lemma get_option_generic_ini_name_witness :
  exists qs,
    queries (snd (get_option_generic (cfg_numbered 0) "strict" VNone initial_world)) = qs
    /\ forall q, q ∈ qs -> q = QIni "strict" \/ q = QOption "strict".
Proof.
  destruct (get_option_generic_ini_name (cfg_numbered 0) "strict" VNone initial_world)
    as (qs & Hqs & _ & Hsame).
  exists qs. split; [exact Hqs|]. apply Hsame.
  intros i. do 6 (destruct i as [|i]; [discriminate|]). discriminate.
Defined.

Lemma load_global_cfg_only_known_lookups_witness :
  Forall (fun q => q ∈ [QIni "tavern-global-cfg"; QIni "tavern_strict";
                        QIni "tavern-http-backend"; QIni "tavern-mqtt-backend";
                        QOption "tavern_global_cfg"; QOption "tavern-strict";
                        QOption "tavern_http_backend"; QOption "tavern_mqtt_backend"])
         (queries (demo_world cfg_bad_strict)).
Proof.
  destruct (load_global_cfg_only_known_lookups demo_loader demo_formatter demo_environ
              cfg_bad_strict initial_world) as (qs & Hqs & Hall).
  unfold demo_world, demo_load_global_cfg. rewrite Hqs.
  apply Forall_forall. exact Hall.
Defined.

Lemma registered_strict_choices_pass_the_check_witness :
  any_invalid [VStr "headers"; VStr "body"] = false
  /\ any_invalid [VStr "headers"; VStr "redirect-query-params"] = true.
Proof.
  destruct (registered_strict_choices_pass_the_check true) as (choices & Hc & Hiff).
  injection Hc as <-. split.
  - apply Hiff. intros i Hi. rewrite !elem_of_cons, elem_of_nil in Hi.
    rewrite !elem_of_cons. destruct Hi as [-> | [-> | []]]; [by right; left | by left].
  - destruct (any_invalid [VStr "headers"; VStr "redirect-query-params"]) eqn:E;
      [reflexivity|].
    assert (Hin : VStr "redirect-query-params"
                  ∈ [VStr "body"; VStr "headers"; VStr "redirect_query_params"]).
    { apply (proj1 (Hiff _) E). rewrite !elem_of_cons. right. by left. }
    rewrite !elem_of_cons, elem_of_nil in Hin.
    destruct Hin as [Hin | [Hin | [Hin | []]]]; discriminate.
Defined.
